(** * weekly-generator: harvester, deal classifier and markdown compiler

    A shallow embedding of the algorithmic core of the repository
    ([src/utils.py], [src/notion_utils.py], [summary_generator.py]) together
    with the properties its specification states about it.

    Conventions.
    - Python [str] values are Rocq [string]s, read as UTF-8 byte sequences:
      lexicographic comparison of such strings coincides with Python's
      code-point comparison.  [\d], [\s], [\b], [str.strip] and [str.lower]
      are modelled on the ASCII characters; a byte above 127 belongs to no
      character class and is left alone by [lower].
    - Python lists are Rocq lists; a dictionary of fixed shape is a record,
      a dictionary read with [get] is a record of [field]s.
    - An exception is an explicit outcome: a function whose body may raise
      returns an [option], [None] standing for the exception, and the
      [try]/[except] around it is the [match] that maps [None] to the value
      of the handler.
    - External collaborators (chat platform, CRM) and the clock are inputs
      of the model: every answer they may give, a fault included, is a value
      of an explicit response type. *)

From Stdlib Require Import List Bool Arith Lia ZArith QArith Qround Qabs Lqa.
From Stdlib Require Import Ascii String DecimalString DecimalZ DecimalPos.
From Stdlib Require Import Sorting.Sorted.
From Stdlib Require Import SpecFloat.
Import ListNotations.

Local Open Scope string_scope.
Local Open Scope list_scope.
Local Open Scope nat_scope.

(* ================================================================== *)
(** * Text helpers: the [str] methods and operators the code relies on *)
(* ================================================================== *)

Module Text.

Definition chars (s : string) : list ascii := list_ascii_of_string s.
Definition str (l : list ascii) : string := string_of_list_ascii l.

Definition code (c : ascii) : nat := nat_of_ascii c.

Definition in_range (lo hi : nat) (c : ascii) : bool :=
  (lo <=? code c) && (code c <=? hi).

Definition is_upper (c : ascii) : bool := in_range 65 90 c.
Definition is_lower (c : ascii) : bool := in_range 97 122 c.
Definition is_digit (c : ascii) : bool := in_range 48 57 c.
Definition is_alnum (c : ascii) : bool := is_upper c || is_lower c || is_digit c.

(** [\w]: alphanumeric or underscore.  Python also counts the alphanumeric
    characters outside ASCII; here a byte above 127 is not a word character,
    so [\b] is exact on ASCII text. *)
Definition is_word (c : ascii) : bool := is_alnum c || (code c =? 95).

(** [str.isspace] on one character: TAB..CR, FS..US and SPACE. *)
Definition is_space (c : ascii) : bool :=
  in_range 9 13 c || in_range 28 32 c.

Definition mem (c : ascii) (set : string) : bool :=
  existsb (Ascii.eqb c) (chars set).

(** [str.lower] *)
Definition lower_char (c : ascii) : ascii :=
  if is_upper c then ascii_of_nat (code c + 32) else c.

Definition lower (s : string) : string := str (map lower_char (chars s)).

(** [s.startswith(p)] on character lists. *)
Fixpoint starts_with (p s : list ascii) : bool :=
  match p, s with
  | [], _ => true
  | a :: p', b :: s' => Ascii.eqb a b && starts_with p' s'
  | _ :: _, [] => false
  end.

(** [needle in hay] *)
Fixpoint contains_chars (needle hay : list ascii) : bool :=
  starts_with needle hay ||
  match hay with
  | [] => false
  | _ :: hay' => contains_chars needle hay'
  end.

Definition contains (needle hay : string) : bool :=
  contains_chars (chars needle) (chars hay).

(** Length of the longest prefix whose characters all satisfy [p]. *)
Fixpoint span (p : ascii -> bool) (s : list ascii) : nat :=
  match s with
  | x :: t => if p x then S (span p t) else 0
  | [] => 0
  end.

Definition lstrip_with (p : ascii -> bool) (s : list ascii) : list ascii :=
  skipn (span p s) s.

Definition rstrip_with (p : ascii -> bool) (s : list ascii) : list ascii :=
  rev (lstrip_with p (rev s)).

(** [s.strip()] *)
Definition strip (s : list ascii) : list ascii :=
  rstrip_with is_space (lstrip_with is_space s).

(** [s.split(sep)] for a one-character separator: never returns [[]]. *)
Fixpoint split_on (sep : ascii) (s : list ascii) : list (list ascii) :=
  match s with
  | [] => [[]]
  | x :: t =>
      if Ascii.eqb x sep then [] :: split_on sep t
      else match split_on sep t with
           | cur :: more => (x :: cur) :: more
           | [] => [[x]]
           end
  end.

Definition newline : ascii := ascii_of_nat 10.

End Text.

(* ================================================================== *)
(** * A backtracking matcher for the regular expressions of the code   *)
(* ================================================================== *)

(** The patterns in the source are written in Python's [re] syntax.  They are
    transcribed into the syntax tree below and run by a backtracking matcher
    with [re]'s strategy: leftmost match, alternatives tried in order, greedy
    quantifiers giving back one repetition at a time.  Every quantified
    sub-pattern of the source is a character class, which is what [Rep]
    covers. *)

Module Re.
Import Text.

Inductive regex : Type :=
| Eps
| Chr (c : ascii)
| Cls (p : ascii -> bool)
| Cat (r1 r2 : regex)
| Alt (r1 r2 : regex)
| Opt (r : regex)
| Rep (p : ascii -> bool) (lo : nat) (hi : option nat)
| Grp (n : nat) (r : regex)
| WordB
| Eos.

(** The literal string [s] as a pattern. *)
Fixpoint lit_chars (s : list ascii) : regex :=
  match s with
  | [] => Eps
  | [c] => Chr c
  | c :: t => Cat (Chr c) (lit_chars t)
  end.

Definition lit (s : string) : regex := lit_chars (chars s).

(** Capture groups: most recent binding first. *)
Definition caps : Type := list (nat * list ascii).

Fixpoint group (n : nat) (c : caps) : option (list ascii) :=
  match c with
  | [] => None
  | (i, g) :: c' => if Nat.eqb i n then Some g else group n c'
  end.

(** The character before the cursor once [n] more characters are read. *)
Definition after (n : nat) (prev : option ascii) (s : list ascii) : option ascii :=
  match n with
  | 0 => prev
  | S i => nth_error s i
  end.

Definition bound (hi : option nat) (n : nat) : nat :=
  match hi with
  | Some h => Nat.min h n
  | None => n
  end.

(** Greedy repetition: try [n] repetitions, then [n-1], ... down to [lo]. *)
Fixpoint rep_down {R : Type} (lo : nat) (k : nat -> option R) (n : nat) : option R :=
  if n <? lo then None
  else match k n with
       | Some v => Some v
       | None => match n with
                 | 0 => None
                 | S i => rep_down lo k i
                 end
       end.

Definition is_word_at (c : option ascii) : bool :=
  match c with
  | Some x => is_word x
  | None => false
  end.

Definition cont (R : Type) : Type := option ascii -> list ascii -> caps -> option R.

Fixpoint run {R : Type} (r : regex) (prev : option ascii) (s : list ascii)
         (c : caps) (k : cont R) : option R :=
  match r with
  | Eps => k prev s c
  | Chr a =>
      match s with
      | x :: t => if Ascii.eqb x a then k (Some x) t c else None
      | [] => None
      end
  | Cls p =>
      match s with
      | x :: t => if p x then k (Some x) t c else None
      | [] => None
      end
  | Cat r1 r2 => run r1 prev s c (fun prev' s' c' => run r2 prev' s' c' k)
  | Alt r1 r2 =>
      match run r1 prev s c k with
      | Some v => Some v
      | None => run r2 prev s c k
      end
  | Opt r1 =>
      match run r1 prev s c k with
      | Some v => Some v
      | None => k prev s c
      end
  | Rep p lo hi =>
      rep_down lo (fun n => k (after n prev s) (skipn n s) c) (bound hi (span p s))
  | Grp n r1 =>
      run r1 prev s c
          (fun prev' s' c' =>
             k prev' s' ((n, firstn (List.length s - List.length s') s) :: c'))
  | WordB =>
      if xorb (is_word_at prev) (is_word_at (hd_error s)) then k prev s c else None
  | Eos =>
      match s with
      | [] => k prev s c
      | [x] => if Ascii.eqb x newline then k prev s c else None
      | _ => None
      end
  end.

(** A match object: offset of the match in the searched string, its
    length, its groups. *)
Record match_obj : Type := MatchObj {
  m_start : nat;
  m_len : nat;
  m_caps : caps
}.

(** [pattern.match] at the cursor: length of the match and its groups. *)
Definition match_here (r : regex) (prev : option ascii) (s : list ascii)
  : option (nat * caps) :=
  run r prev s [] (fun _ s' c => Some (List.length s - List.length s', c)).

Fixpoint search_from (r : regex) (prev : option ascii) (s : list ascii) (i : nat)
  : option match_obj :=
  match match_here r prev s with
  | Some (n, c) => Some (MatchObj i n c)
  | None =>
      match s with
      | [] => None
      | x :: t => search_from r (Some x) t (S i)
      end
  end.

(** [re.search(r, s)] *)
Definition search (r : regex) (s : list ascii) : option match_obj :=
  search_from r None s 0.

(** [re.match(r, s)] *)
Definition match_start (r : regex) (s : list ascii) : option match_obj :=
  match match_here r None s with
  | Some (n, c) => Some (MatchObj 0 n c)
  | None => None
  end.

(** [re.findall(r, s)] for a pattern without capture groups: the matched
    substrings, left to right, non-overlapping.  [skip] counts the
    characters of the last match still to be passed over. *)
Fixpoint findall_from (r : regex) (prev : option ascii) (s : list ascii) (skip : nat)
  : list (list ascii) :=
  match skip with
  | S j =>
      match s with
      | [] => []
      | x :: t => findall_from r (Some x) t j
      end
  | 0 =>
      match match_here r prev s with
      | Some (n, _) =>
          firstn n s ::
          match s with
          | [] => []
          | x :: t => findall_from r (Some x) t (n - 1)
          end
      | None =>
          match s with
          | [] => []
          | x :: t => findall_from r (Some x) t 0
          end
      end
  end.

Definition findall (r : regex) (s : list ascii) : list (list ascii) :=
  findall_from r None s 0.

(** [re.sub(r, repl, s)] with a function [repl] of the match's groups. *)
Fixpoint sub_from (r : regex) (repl : caps -> list ascii) (prev : option ascii)
         (s : list ascii) (skip : nat) : list ascii :=
  match skip with
  | S j =>
      match s with
      | [] => []
      | x :: t => sub_from r repl (Some x) t j
      end
  | 0 =>
      match match_here r prev s with
      | Some (n, c) =>
          repl c ++
          match s with
          | [] => []
          | x :: t =>
              match n with
              | 0 => x :: sub_from r repl (Some x) t 0
              | S i => sub_from r repl (Some x) t i
              end
          end
      | None =>
          match s with
          | [] => []
          | x :: t => x :: sub_from r repl (Some x) t 0
          end
      end
  end.

Definition sub (r : regex) (repl : caps -> list ascii) (s : list ascii) : list ascii :=
  sub_from r repl None s 0.

End Re.

(* ================================================================== *)
(** * Markdown block compiler ([src/notion_utils.py])                  *)
(* ================================================================== *)

Module Notion.
Import Text Re.

(** A Notion rich-text object.  The source builds dictionaries of four
    shapes: bare content, content with a link, content annotated bold,
    content annotated italic. *)
Inductive rich_text : Type :=
| Text (content : string)
| TextLink (content url : string)
| TextBold (content : string)
| TextItalic (content : string).

Inductive pattern_type : Type := link | bold | italic.

Definition other_than (c : ascii) : ascii -> bool :=
  fun x => negb (Ascii.eqb x c).

(** [\[([^\]]+)\]\(([^)]+)\)] *)
Definition link_pattern : regex :=
  Cat (Chr "[") (Cat (Grp 1 (Rep (other_than "]") 1 None))
  (Cat (Chr "]") (Cat (Chr "(") (Cat (Grp 2 (Rep (other_than ")") 1 None))
  (Chr ")"))))).

(** [\*\*([^*]+)\*\*] *)
Definition bold_pattern : regex :=
  Cat (Chr "*") (Cat (Chr "*") (Cat (Grp 1 (Rep (other_than "*") 1 None))
  (Cat (Chr "*") (Chr "*")))).

(** [\*([^*]+)\*] *)
Definition italic_pattern : regex :=
  Cat (Chr "*") (Cat (Grp 1 (Rep (other_than "*") 1 None)) (Chr "*")).

Definition patterns : list (regex * pattern_type) :=
  [(link_pattern, link); (bold_pattern, bold); (italic_pattern, italic)].

(** [match.group(n)] of a group that took part in the match. *)
Definition group_text (n : nat) (mt : match_obj) : string :=
  match group n (m_caps mt) with
  | Some g => str g
  | None => EmptyString
  end.

(** [text[i:j]] *)
Definition slice (text : list ascii) (i j : nat) : list ascii :=
  firstn (j - i) (skipn i text).

(** The inner [for] loop over [patterns]: the three loop variables
    [next_match], [next_pattern_type], [next_pos] are threaded through. *)
Fixpoint find_next (ps : list (regex * pattern_type)) (text : list ascii)
         (current_pos : nat) (next_match : option match_obj)
         (next_pattern_type : option pattern_type) (next_pos : nat)
  : option match_obj * option pattern_type * nat :=
  match ps with
  | [] => (next_match, next_pattern_type, next_pos)
  | (pattern, ty) :: rest =>
      match search pattern (skipn current_pos text) with
      | Some mt =>
          let match_start := current_pos + m_start mt in
          if match_start <? next_pos
          then find_next rest text current_pos (Some mt) (Some ty) match_start
          else find_next rest text current_pos next_match next_pattern_type next_pos
      | None => find_next rest text current_pos next_match next_pattern_type next_pos
      end
  end.

Definition styled (ty : pattern_type) (mt : match_obj) : rich_text :=
  match ty with
  | link => TextLink (group_text 1 mt) (group_text 2 mt)
  | bold => TextBold (group_text 1 mt)
  | italic => TextItalic (group_text 1 mt)
  end.

(** The [while current_pos < len(text)] loop.  Every iteration moves
    [current_pos] forward, so [len(text)] iterations always suffice
    (see [parse_loop_fuel]). *)
Fixpoint parse_loop (fuel : nat) (text : list ascii) (current_pos : nat)
         (rich : list rich_text) : list rich_text :=
  match fuel with
  | 0 => rich
  | S fuel' =>
      if current_pos <? List.length text then
        match find_next patterns text current_pos None None (List.length text) with
        | (Some mt, Some ty, next_pos) =>
            let rich1 :=
              if current_pos <? next_pos
              then rich ++ [Text (str (slice text current_pos next_pos))]
              else rich in
            let rich2 := rich1 ++ [styled ty mt] in
            parse_loop fuel' text (next_pos + m_len mt) rich2
        | _ =>
            if current_pos <? List.length text
            then rich ++ [Text (str (skipn current_pos text))]
            else rich
        end
      else rich
  end.

Definition parse_rich_text_with_links (text : string) : list rich_text :=
  match parse_loop (List.length (chars text)) (chars text) 0 [] with
  | [] => [Text text]
  | rich => rich
  end.

(** A Notion block; [Heading n] stands for the block type [heading_n]. *)
Inductive block : Type :=
| Heading (level : nat) (rich : list rich_text)
| BulletedListItem (rich : list rich_text)
| NumberedListItem (rich : list rich_text)
| Code (rich : list rich_text)
| Paragraph (rich : list rich_text).

(** [\*\*|\*|\[([^\]]+)\]\(([^)]+)\)] *)
Definition heading_markup : regex :=
  Alt (Cat (Chr "*") (Chr "*")) (Alt (Chr "*") link_pattern).

(** [lambda m: m.group(1) if m.group(1) else ''] *)
Definition heading_repl (c : caps) : list ascii :=
  match group 1 c with
  | Some g => g
  | None => []
  end.

(** [^\d+\.\s+(.+)$] *)
Definition numbered_pattern : regex :=
  Cat (Rep is_digit 1 None) (Cat (Chr ".") (Cat (Rep is_space 1 None)
  (Cat (Grp 1 (Rep (other_than newline) 1 None)) Eos))).

Definition is_hash (c : ascii) : bool := Ascii.eqb c "#".

(** The body of the [for line in lines] loop: [None] is [continue] on a
    blank line, otherwise the block appended. *)
Definition convert_line (line : list ascii) : option block :=
  match strip line with
  | [] => None
  | stripped =>
      if starts_with (chars "#") line then
        let level := span is_hash line in
        let content := strip (lstrip_with is_hash line) in
        let content := sub heading_markup heading_repl content in
        Some (Heading (Nat.min level 3) [Text (str content)])
      else if starts_with (chars "- ") stripped then
        Some (BulletedListItem (parse_rich_text_with_links (str (skipn 2 stripped))))
      else
        match match_start numbered_pattern stripped with
        | Some numbered_match =>
            Some (NumberedListItem
                    (parse_rich_text_with_links (group_text 1 numbered_match)))
        | None =>
            if starts_with (chars "```") stripped then
              Some (Code [Text (str (skipn 3 stripped))])
            else
              Some (Paragraph (parse_rich_text_with_links (str line)))
        end
  end.

Definition convert_markdown_to_blocks (markdown : string) : list block :=
  fold_left
    (fun blocks line =>
       match convert_line line with
       | Some b => blocks ++ [b]
       | None => blocks
       end)
    (split_on newline (chars markdown)) [].

End Notion.

(* ================================================================== *)
(** * Message harvester ([src/utils.py])                               *)
(* ================================================================== *)

Module Harvest.
Import Text Re.

(** ** Points in time

    The platform hands out timezone-aware UTC [datetime] values; such a
    value is its calendar fields, and two of them compare field by field. *)
Record datetime : Type := DateTime {
  year : nat; month : nat; day : nat;
  hour : nat; minute : nat; second : nat; microsecond : nat
}.

Definition fields (d : datetime) : list nat :=
  [year d; month d; day d; hour d; minute d; second d; microsecond d].

Fixpoint lex_ltb (a b : list nat) : bool :=
  match a, b with
  | x :: a', y :: b' => (x <? y) || ((x =? y) && lex_ltb a' b')
  | [], _ :: _ => true
  | _, [] => false
  end.

(** [a < b] on datetimes *)
Definition datetime_ltb (a b : datetime) : bool := lex_ltb (fields a) (fields b).

Definition digit (n : nat) : ascii := ascii_of_nat (48 + n mod 10).

(** [n] printed in decimal on at least [width] digits, zero padded *)
Fixpoint zero_padded (width n : nat) : list ascii :=
  match width with
  | 0 => []
  | S w => zero_padded w (n / 10) ++ [digit n]
  end.

(** [datetime.isoformat()] of an aware UTC value: the fraction is printed
    only when the microseconds are not zero. *)
Definition isoformat (d : datetime) : string :=
  str (zero_padded 4 (year d) ++ chars "-" ++ zero_padded 2 (month d) ++ chars "-"
       ++ zero_padded 2 (day d) ++ chars "T" ++ zero_padded 2 (hour d) ++ chars ":"
       ++ zero_padded 2 (minute d) ++ chars ":" ++ zero_padded 2 (second d)
       ++ (if microsecond d =? 0 then [] else chars "." ++ zero_padded 6 (microsecond d))
       ++ chars "+00:00").

(** ** Platform objects, as far as the harvester reads them *)

Record Author : Type := mkAuthor { author_name : string; bot : bool }.

Record Message : Type := mkMessage {
  msg_id : Z;
  msg_content : string;
  msg_author : Author;
  created_at : datetime;
  msg_attachments : list string;     (* [a.url for a in message.attachments] *)
  msg_embeds : nat                   (* [len(message.embeds)] *)
}.

(** One answer of [channel.history(limit=100, before=...)]: a page, newest
    first, or an exception. *)
Inductive response : Type :=
| Page (fetched_messages : list Message)
| Fault.

(** A channel or thread.  [history] lists the answers the platform gives to
    the successive history requests of one run; a feed with no further
    answer is read as exhausted (an empty page).  [origin] is the outcome
    of [channel.parent.fetch_message(channel.id)]: [None] when the call
    raises. *)
Record Channel : Type := mkChannel {
  channel_name : string;
  history : list response;
  origin : option Message
}.

Record MessageData : Type := mkMessageData {
  id : string;
  content : string;
  author : string;
  timestamp : string;
  attachments : list string;
  embeds : nat;
  md_channel_name : string;
  is_thread : bool;
  thread_name : option string;
  urls : list string
}.

(** [str(n)] for an integer *)
Definition str_of_Z (z : Z) : string := NilZero.string_of_int (Z.to_int z).

(** ** URL extraction *)

Definition url_chars_1 (c : ascii) : bool := is_alnum c || mem c "-@:%._+~#=".
Definition url_chars_2 (c : ascii) : bool := is_alnum c || mem c "()".
Definition url_chars_3 (c : ascii) : bool := is_alnum c || mem c "-()@:%_+.~#?&/=".

(** The pattern of [extract_urls]:
    [https?://] [(?:www\.)?] [[-a-zA-Z0-9@:%._\+~#=]{1,256}] [\.]
    [[a-zA-Z0-9()]{1,6}] [\b] and then any number of characters of
    [[-a-zA-Z0-9()@:%_\+.~#?&\/=]]. *)
Definition url_pattern : regex :=
  Cat (lit "http") (Cat (Opt (Chr "s")) (Cat (lit "://") (Cat (Opt (lit "www."))
  (Cat (Rep url_chars_1 1 (Some 256)) (Cat (Chr ".") (Cat (Rep url_chars_2 1 (Some 6))
  (Cat WordB (Rep url_chars_3 0 None)))))))).

Definition extract_urls (text : string) : list string :=
  map str (findall url_pattern (chars text)).

(** ['github.com' not in url.lower()] *)
Definition not_github (url : string) : bool :=
  negb (contains "github.com" (lower url)).

(** ** The harvester *)

Section Harvester.

(** The arguments of one call; [cutoff_date] is the value computed on
    entry as [datetime.now(timezone.utc) - timedelta(days=days)]. *)
Variable channel : Channel.
Variable cutoff_date : datetime.
Variable is_thread_arg : bool.
Variable thread_name_arg : option string.

(** [first_message]: fetched only for threads. *)
Definition first_message : option Message :=
  if is_thread_arg then origin channel else None.

Definition message_data (message : Message) : MessageData :=
  {| id := str_of_Z (msg_id message);
     content := msg_content message;
     author := author_name (msg_author message);
     timestamp := isoformat (created_at message);
     attachments := msg_attachments message;
     embeds := msg_embeds message;
     md_channel_name := channel_name channel;
     is_thread := is_thread_arg;
     thread_name := if is_thread_arg then thread_name_arg else None;
     urls := filter not_github (extract_urls (msg_content message)) |}.

Definition first_message_data (fm : Message) : MessageData :=
  {| id := str_of_Z (msg_id fm);
     content := String.append "[Thread Starter] " (msg_content fm);
     author := author_name (msg_author fm);
     timestamp := isoformat (created_at fm);
     attachments := msg_attachments fm;
     embeds := msg_embeds fm;
     md_channel_name := channel_name channel;
     is_thread := is_thread_arg;
     thread_name := if is_thread_arg then thread_name_arg else None;
     urls := extract_urls (msg_content fm) |}.

(** [is_thread and first_message and message.id == first_message.id] *)
Definition is_first_message (message : Message) : bool :=
  is_thread_arg &&
  match first_message with
  | Some fm => Z.eqb (msg_id message) (msg_id fm)
  | None => false
  end.

(** The [for message in fetched_messages] loop.  The boolean is [false]
    when the loop left through [fetch_more = False; break]. *)
Fixpoint process_page (fetched : list Message) (messages : list MessageData)
  : list MessageData * bool :=
  match fetched with
  | [] => (messages, true)
  | message :: rest =>
      if datetime_ltb (created_at message) cutoff_date then (messages, false)
      else if bot (msg_author message) then process_page rest messages
      else if is_first_message message then process_page rest messages
      else process_page rest (messages ++ [message_data message])
  end.

(** [options]: the [before] cursor is set only when [last_id] is truthy. *)
Definition before_option (last_id : option Z) : option Z :=
  match last_id with
  | Some i => if Z.eqb i 0 then None else Some i
  | None => None
  end.

(** The [while fetch_more] loop.  The result is the messages gathered
    ([None] when a request raised) and the [before] cursors of the
    requests made, in order. *)
Fixpoint fetch_loop (answers : list response) (last_id : option Z)
         (messages : list MessageData) (requests : list (option Z))
  : option (list MessageData) * list (option Z) :=
  let requests' := requests ++ [before_option last_id] in
  match answers with
  | [] => (Some messages, requests')
  | Fault :: _ => (None, requests')
  | Page [] :: _ => (Some messages, requests')
  | Page fetched_messages :: later =>
      let last_id' := option_map msg_id (List.last (map Some fetched_messages) None) in
      let '(messages', fetch_more) := process_page fetched_messages messages in
      if fetch_more && negb (List.length fetched_messages <? 100)
      then fetch_loop later last_id' messages' requests'
      else (Some messages', requests')
  end.

(** [messages.sort(key=lambda x: x.timestamp)]: a stable sort on the
    timestamp strings. *)
Fixpoint insert_by_timestamp (x : MessageData) (l : list MessageData)
  : list MessageData :=
  match l with
  | [] => [x]
  | y :: t =>
      if String.ltb (timestamp y) (timestamp x)
      then y :: insert_by_timestamp x t
      else x :: y :: t
  end.

Definition sort_by_timestamp (l : list MessageData) : list MessageData :=
  fold_right insert_by_timestamp [] l.

(** [is_thread and first_message and not first_message.author.bot] *)
Definition thread_starter : option Message :=
  match first_message with
  | Some fm => if is_thread_arg && negb (bot (msg_author fm)) then Some fm else None
  | None => None
  end.

(** The body of the outer [try]: [None] stands for a raised exception. *)
Definition harvest : option (list MessageData) * list (option Z) :=
  match fetch_loop (history channel) None [] [] with
  | (Some messages, requests) =>
      let sorted := sort_by_timestamp messages in
      (Some (match thread_starter with
             | Some fm => first_message_data fm :: sorted
             | None => sorted
             end), requests)
  | (None, requests) => (None, requests)
  end.

(** The [except Exception] handler returns the empty list. *)
Definition fetch_messages_from_past : list MessageData :=
  match fst harvest with
  | Some messages => messages
  | None => []
  end.

(** The history requests made by the call. *)
Definition history_requests : list (option Z) := snd harvest.

End Harvester.

End Harvest.

(* ================================================================== *)
(** * Deal-state classifier ([summary_generator.py])                   *)
(* ================================================================== *)

Module Deals.
Import Text.

(** ** JSON as the code reads it *)

(** What a key of a JSON object holds: no such key, [null], or a value. *)
Inductive field (A : Type) : Type :=
| Missing
| Null
| Val (a : A).
Arguments Missing {A}.
Arguments Null {A}.
Arguments Val {A} a.

(** [d.get(key)]: [None] for a missing key and for [null]. *)
Definition get {A : Type} (f : field A) : option A :=
  match f with
  | Val a => Some a
  | _ => None
  end.

(** [d.get(key, default)]: the default replaces a missing key only. *)
Definition get_default {A : Type} (f : field A) (default : A) : option A :=
  match f with
  | Missing => Some default
  | Null => None
  | Val a => Some a
  end.

(** A string or a number. *)
Inductive scalar : Type :=
| SStr (s : string)
| SNum (q : Q).

(** [x == 'won'] *)
Definition is_str (s : string) (x : option scalar) : bool :=
  match x with
  | Some (SStr t) => String.eqb t s
  | _ => false
  end.

(** A JSON number as Python reads it: an [int], or a [float], which is an
    IEEE 754 double.  The doubles are the values of [spec_float] in the
    format of precision 53 and exponent bound 1024; the operations on them
    round to nearest, ties to even. *)
Inductive number : Type :=
| NInt (z : Z)
| NFloat (f : spec_float).

Definition float_add : spec_float -> spec_float -> spec_float := SFadd 53 1024.
Definition float_sub : spec_float -> spec_float -> spec_float := SFsub 53 1024.

(** [float(z)], the conversion an addition of an [int] and a [float] makes:
    the nearest double; [None] is the [OverflowError] of an integer too
    large for a double. *)
Definition float_of_int (z : Z) : option spec_float :=
  match binary_normalize 53 1024 z 0 false with
  | S754_infinity _ => None
  | f => Some f
  end.

(** [a + b] *)
Definition add (a b : number) : option number :=
  match a, b with
  | NInt x, NInt y => Some (NInt (x + y))
  | NInt x, NFloat g =>
      match float_of_int x with
      | Some f => Some (NFloat (float_add f g))
      | None => None
      end
  | NFloat f, NInt y =>
      match float_of_int y with
      | Some g => Some (NFloat (float_add f g))
      | None => None
      end
  | NFloat f, NFloat g => Some (NFloat (float_add f g))
  end.

Record Org : Type := mkOrg { org_name : field string }.

Record Deal : Type := mkDeal {
  deal_id : field Z;
  title : field string;
  value : field number;
  status : field string;
  update_time : field string;
  won_time : field string;
  lost_time : field string;
  lost_reason : field string;
  org_id : field Org
}.

Record FlowData : Type := mkFlowData {
  old_value : field scalar;
  new_value : field scalar
}.

Record FlowItem : Type := mkFlowItem {
  object_type : field string;
  to_value : field scalar;
  object : field string;
  flow_timestamp : field string;
  flow_data : field FlowData
}.

Record Organization : Type := mkOrganization {
  add_time : field string;
  organization_name : field string;
  member_count : field scalar       (* the custom field 45b5cafd... *)
}.

(** The body of a response: the [success] flag and the [data] array; an
    entry of the array is an object or [null]. *)
Record body (A : Type) : Type := mkBody {
  success : field bool;
  data : field (list (option A))
}.
Arguments mkBody {A} success data.
Arguments success {A} b.
Arguments data {A} b.

(** The outcome of [requests.get] followed by [raise_for_status] and
    [json()]: an exception or the decoded body. *)
Inductive http (A : Type) : Type :=
| Failed
| Json (b : body A).
Arguments Failed {A}.
Arguments Json {A} b.

(** The CRM as the code sees it: whether the credentials are set, and the
    answer to each of the requests the code makes. *)
Record CRM : Type := mkCRM {
  configured : bool;
  all_deals : http Deal;                    (* GET /deals, status=all_not_deleted *)
  won_deals : http Deal;                    (* GET /deals, status=won *)
  deal_flow : option Z -> http FlowItem;    (* GET /deals/{id}/flow *)
  organizations : http Organization         (* GET /organizations *)
}.

(** [data.get('success', False)] as a condition *)
Definition succeeded {A : Type} (b : body A) : bool :=
  match get_default (success b) false with
  | Some flag => flag
  | None => false
  end.

(** [x >= y] and [x < y] on strings *)
Definition str_ge (x y : string) : bool := String.leb y x.
Definition str_lt (x y : string) : bool := String.ltb x y.

(** [s.split(' ')[0]] *)
Definition date_part (s : string) : string :=
  str (hd [] (split_on " " (chars s))).

(** A value inside an f-string: [None] prints as "None". *)
Definition fmt (o : option string) : string :=
  match o with
  | Some s => s
  | None => "None"
  end.

(** The currency marker and the arrow, byte for byte as in the source. *)
Definition currency : string := "â‚¬".
Definition arrow : string := "â†’".

Definition cat (l : list string) : string := String.concat "" l.

(** ** Rounding *)

(** [round(x)] of a float: the nearest integer, a tie going to the even
    neighbour; [None] is the [OverflowError] of an infinity and the
    [ValueError] of a NaN. *)
Definition round_float (f : spec_float) : option Z :=
  match f with
  | S754_zero _ => Some 0%Z
  | S754_infinity _ => None
  | S754_nan => None
  | S754_finite s m e =>
      let magnitude :=
        if (0 <=? e)%Z then (Z.pos m * 2 ^ e)%Z
        else
          let d := (2 ^ (- e))%Z in
          let q := (Z.pos m / d)%Z in
          let r := (Z.pos m mod d)%Z in
          match (2 * r ?= d)%Z with
          | Lt => q
          | Gt => (q + 1)%Z
          | Eq => if Z.even q then q else (q + 1)%Z
          end in
      Some (if s then (- magnitude)%Z else magnitude)
  end.

(** [round(x)]: an [int] is its own rounding. *)
Definition round (x : number) : option Z :=
  match x with
  | NInt z => Some z
  | NFloat f => round_float f
  end.

(** ** The built-in [sum]

    [sum] adds the items from left to right, starting from the integer 0.
    Integers add up exactly.  From the first float on the total is a double:
    CPython before version 3.12 adds each further item with [+]; from 3.12
    on it keeps, next to the running double, a compensation term for the
    rounding errors, as long as the items are floats or integers that fit a
    C [long], and adds the term in at the end.  It enters that mode only if
    the integers met before the first float, and their partial sums, fit a C
    [long] as well. *)

(** What [sum] holds between two items: an exact integer kept in a C
    [long], a double with its compensation term, or a Python number that
    [+] is applied to. *)
Inductive total : Type :=
| Whole (i_result : Z)
| Compensated (f_result c : spec_float)
| General (result : number).

Definition is_finite (f : spec_float) : bool :=
  match f with
  | S754_zero _ => true
  | S754_finite _ _ _ => true
  | _ => false
  end.

Definition is_zero (f : spec_float) : bool :=
  match f with
  | S754_zero _ => true
  | _ => false
  end.

(** [if (c && isfinite(c)) f_result += c] *)
Definition settle (f_result c : spec_float) : spec_float :=
  if negb (is_zero c) && is_finite c then float_add f_result c else f_result.

Section Classifier.

(** Python's conversions between numbers and text, which the model does
    not interpret: [str] of a JSON number, [str] of a float, and
    [float] of a string ([None] when it raises). *)
Variable show_number : number -> string.
Variable show_float : Q -> string.
Variable float_of_string : string -> option Q.

(** The interpreter running the code: whether its [sum] compensates the
    rounding errors of floats (CPython 3.12 and later), and the largest C
    [long] of its platform. *)
Variable compensated_sum : bool.
Variable long_max : Z.

(** The window start as the code prints it: as a date ([strftime] of the
    local clock) and as an ISO timestamp (of the UTC clock). *)
Variable seven_days_ago : string.
Variable seven_days_ago_iso : string.

Variable crm : CRM.

(** [float(x)]; [None] when it raises. *)
Definition to_float (x : option scalar) : option Q :=
  match x with
  | Some (SNum q) => Some q
  | Some (SStr s) => float_of_string s
  | None => None
  end.

(** [float(d.get(key, '0'))]: a missing key gives [float('0')]. *)
Definition float_or_zero (f : field scalar) : option Q :=
  match f with
  | Missing => Some 0%Q
  | Null => None
  | Val x => to_float (Some x)
  end.

Definition fmt_number (o : option number) : string :=
  match o with
  | Some q => show_number q
  | None => "None"
  end.

(** *** [get_won_deals] and [calculate_total_won_value] *)

(** [None] is the Python value [None], which [data.get('data', [])]
    yields for a [null] array. *)
Definition get_won_deals : option (list (option Deal)) :=
  if negb (configured crm) then Some []
  else match won_deals crm with
       | Failed => Some []
       | Json b => if succeeded b then get_default (data b) [] else Some []
       end.

Definition fits_long (z : Z) : bool :=
  ((- long_max - 1 <=? z) && (z <=? long_max))%Z.

(** [sum] takes one more item; [None] when the addition raises. *)
Definition sum_step (so_far : total) (item : number) : option total :=
  match so_far, item with
  | Whole i_result, NInt b =>
      if fits_long b && fits_long (i_result + b)
      then Some (Whole (i_result + b))
      else Some (General (NInt (i_result + b)))
  | Whole i_result, NFloat _ =>
      match add (NInt i_result) item with
      | Some (NFloat f) =>
          Some (if compensated_sum then Compensated f (S754_zero false)
                else General (NFloat f))
      | Some result => Some (General result)
      | None => None
      end
  | Compensated f_result c, NFloat x =>
      let t := float_add f_result x in
      let lost :=
        if SFleb (SFabs x) (SFabs f_result)
        then float_add (float_sub f_result t) x
        else float_add (float_sub x t) f_result in
      Some (Compensated t (float_add c lost))
  | Compensated f_result c, NInt value =>
      if fits_long value then
        match float_of_int value with
        | Some v => Some (Compensated (float_add f_result v) c)
        | None => None
        end
      else
        match add (NFloat (settle f_result c)) item with
        | Some result => Some (General result)
        | None => None
        end
  | General result, _ =>
      match add result item with
      | Some result' => Some (General result')
      | None => None
      end
  end.

(** The value [sum] returns when the items are exhausted *)
Definition sum_result (so_far : total) : number :=
  match so_far with
  | Whole i_result => NInt i_result
  | Compensated f_result c => NFloat (settle f_result c)
  | General result => result
  end.

(** [sum(deal.get("value", 0) for deal in won_deals if deal)]: an entry
    that is [None] is passed over, a deal without value counts the integer
    0, and a value that is [None] makes the addition raise. *)
Fixpoint sum_values (deals : list (option Deal)) (so_far : total) : option number :=
  match deals with
  | [] => Some (sum_result so_far)
  | None :: rest => sum_values rest so_far
  | Some deal :: rest =>
      match get_default (value deal) (NInt 0) with
      | Some v =>
          match sum_step so_far v with
          | Some so_far' => sum_values rest so_far'
          | None => None
          end
      | None => None
      end
  end.

(** [None] when the call raises. *)
Definition calculate_total_won_value : option Z :=
  match get_won_deals with
  | Some deals =>
      match sum_values deals (Whole 0) with
      | Some total_value => round total_value
      | None => None
      end
  | None => None
  end.

(** *** [filter_deals_with_value_change] *)

(** [None] when the loop raises. *)
Fixpoint filter_loop (deals : list (option Deal)) (filtered : list Deal)
  : option (list Deal) :=
  match deals with
  | [] => Some filtered
  | None :: _ => None
  | Some deal :: rest =>
      match get (update_time deal) with
      | None => None
      | Some upd =>
          if str_ge upd seven_days_ago_iso &&
             match get (won_time deal) with
             | Some won => str_lt won seven_days_ago_iso
             | None => false
             end
          then filter_loop rest (filtered ++ [deal])
          else filter_loop rest filtered
      end
  end.

Definition filter_deals_with_value_change (deals : body Deal) : option (list Deal) :=
  match get_default (data deals) [] with
  | Some l => filter_loop l []
  | None => None
  end.

(** *** [check_if_previously_won] *)

(** The loop over the flow items; [None] when it raises. *)
Fixpoint ever_won (items : list (option FlowItem)) : option bool :=
  match items with
  | [] => Some false
  | None :: _ => None
  | Some flow_item :: rest =>
      if match get (object_type flow_item) with
         | Some t => String.eqb t "dealStatus"
         | None => false
         end && is_str "won" (get (to_value flow_item))
      then Some true
      else match flow_data flow_item with
           | Val d => if is_str "won" (get (old_value d)) then Some true
                      else ever_won rest
           | _ => None
           end
  end.

Definition check_if_previously_won (id : option Z) : bool :=
  if negb (configured crm) then false
  else match deal_flow crm id with
       | Failed => false
       | Json flow =>
           if succeeded flow then
             match get_default (data flow) [] with
             | Some items =>
                 match ever_won items with
                 | Some b => b
                 | None => false
                 end
             | None => false
             end
           else false
       end.

(** *** [get_deal_value_change] *)

Definition change_line (kind : string) (deal_title : option string)
           (old new : Q) : string :=
  cat [kind; ": "; fmt deal_title; " "; show_float old; currency; " "; arrow; " ";
       show_float new; currency; " ("; show_float (new - old); currency; ")"].

(** The loop over the flow items.  Every exception ends the function
    with [None], as does a flow without a qualifying change. *)
Fixpoint first_value_change (deal_title : option string)
         (items : list (option FlowItem)) : option string :=
  match items with
  | [] => None
  | None :: _ => None
  | Some flow_item :: rest =>
      if match get (object flow_item) with
         | Some o => String.eqb o "dealChange"
         | None => false
         end
      then
        match get (flow_timestamp flow_item) with
        | None => None
        | Some ts =>
            if str_ge ts seven_days_ago_iso then
              match get_default (flow_data flow_item) (mkFlowData Missing Missing) with
              | None => None
              | Some d =>
                  match float_or_zero (old_value d), float_or_zero (new_value d) with
                  | Some old, Some new =>
                      match Qcompare (new - old) 0 with
                      | Lt => Some (change_line "Downgrade" deal_title old new)
                      | Gt => Some (change_line "Upgrade" deal_title old new)
                      | Eq => first_value_change deal_title rest
                      end
                  | _, _ => None
                  end
              end
            else first_value_change deal_title rest
        end
      else first_value_change deal_title rest
  end.

Definition get_deal_value_change (id : option Z) (deal_title : option string)
  : option string :=
  if negb (configured crm) then None
  else match deal_flow crm id with
       | Failed => None
       | Json flow =>
           if succeeded flow then
             match get_default (data flow) [] with
             | Some items => first_value_change deal_title items
             | None => None
             end
           else None
       end.

(** *** [get_new_organizations] *)

Fixpoint new_orgs_loop (orgs : list (option Organization))
         (new_orgs : list (option string * option scalar))
  : option (list (option string * option scalar)) :=
  match orgs with
  | [] => Some new_orgs
  | None :: _ => None
  | Some org :: rest =>
      match get (add_time org) with
      | Some t =>
          if negb (String.eqb t "") && str_ge t seven_days_ago_iso
          then new_orgs_loop rest
                 (new_orgs ++ [(get_default (organization_name org) "Unnamed organization",
                                get_default (member_count org) (SStr "?"))])
          else new_orgs_loop rest new_orgs
      | None => new_orgs_loop rest new_orgs
      end
  end.

Definition get_new_organizations : list (option string * option scalar) :=
  if negb (configured crm) then []
  else match organizations crm with
       | Failed => []
       | Json b =>
           if succeeded b then
             match get_default (data b) [] with
             | Some orgs =>
                 match new_orgs_loop orgs [] with
                 | Some l => l
                 | None => []
                 end
             | None => []
             end
           else []
       end.

(** *** [fetch_recent_pipedrive_deals] *)

(** The lists the classifier fills. *)
Record buckets : Type := mkBuckets {
  converted : list string;
  churned : list string;
  lost_deals : list string;
  to_convert : list (option string);
  new_trials : list (option string);
  upgrades : list string;
  downgrades : list string
}.

(** The value-change pass: [None] when it raises. *)
Fixpoint value_change_loop (deals : list Deal) (ups downs : list string)
  : option (list string * list string) :=
  match deals with
  | [] => Some (ups, downs)
  | deal :: rest =>
      match get_deal_value_change (get (deal_id deal)) (get (title deal)) with
      | None => None
      | Some deal_change =>
          if starts_with (chars "Downgrade") (chars deal_change)
          then value_change_loop rest ups (downs ++ [deal_change])
          else value_change_loop rest (ups ++ [deal_change]) downs
      end
  end.

Definition value_change_pass (deals_data : body Deal)
  : option (list string * list string) :=
  match filter_deals_with_value_change deals_data with
  | Some l => value_change_loop l [] []
  | None => None
  end.

(** [bucket.append(line)] for each of the lists. *)
Definition add_converted (b : buckets) (line : string) : buckets :=
  mkBuckets (converted b ++ [line]) (churned b) (lost_deals b) (to_convert b)
            (new_trials b) (upgrades b) (downgrades b).
Definition add_churned (b : buckets) (line : string) : buckets :=
  mkBuckets (converted b) (churned b ++ [line]) (lost_deals b) (to_convert b)
            (new_trials b) (upgrades b) (downgrades b).
Definition add_lost_deal (b : buckets) (line : string) : buckets :=
  mkBuckets (converted b) (churned b) (lost_deals b ++ [line]) (to_convert b)
            (new_trials b) (upgrades b) (downgrades b).
Definition add_to_convert (b : buckets) (company : option string) : buckets :=
  mkBuckets (converted b) (churned b) (lost_deals b) (to_convert b ++ [company])
            (new_trials b) (upgrades b) (downgrades b).
Definition add_new_trial (b : buckets) (company : option string) : buckets :=
  mkBuckets (converted b) (churned b) (lost_deals b) (to_convert b)
            (new_trials b ++ [company]) (upgrades b) (downgrades b).
Definition add_upgrade (b : buckets) (line : string) : buckets :=
  mkBuckets (converted b) (churned b) (lost_deals b) (to_convert b)
            (new_trials b) (upgrades b ++ [line]) (downgrades b).
Definition add_downgrade (b : buckets) (line : string) : buckets :=
  mkBuckets (converted b) (churned b) (lost_deals b) (to_convert b)
            (new_trials b) (upgrades b) (downgrades b ++ [line]).

(** The lines the classifier writes:
    ["{deal_company} +{deal_value}<currency>/mo"],
    ["{deal_company} -{deal_value}<currency>/mo"],
    ["{deal_company} -{deal_value}<currency>/mo ({deal_lost_reason})"],
    ["{deal_company} ({deal_lost_reason})"]. *)
Definition gain_line (company : option string) (v : option number) : string :=
  cat [fmt company; " +"; fmt_number v; currency; "/mo"].
Definition loss_line (company : option string) (v : option number) : string :=
  cat [fmt company; " -"; fmt_number v; currency; "/mo"].
Definition churn_line (company : option string) (v : option number)
           (reason : option string) : string :=
  cat [fmt company; " -"; fmt_number v; currency; "/mo ("; fmt reason; ")"].
Definition lost_line (company reason : option string) : string :=
  cat [fmt company; " ("; fmt reason; ")"].

(** ['kw' in deal_title.lower()]; [None] when the title is [None] and the
    method call raises. *)
Definition title_has (kw : string) (deal_title : option string) : option bool :=
  match deal_title with
  | Some t => Some (contains kw (lower t))
  | None => None
  end.

Definition in_window (time : option string) : bool :=
  match time with
  | Some t => negb (String.eqb t "") && str_ge (date_part t) seven_days_ago
  | None => false
  end.

Definition status_is (s : string) (deal_status : option string) : bool :=
  match deal_status with
  | Some t => String.eqb t s
  | None => false
  end.

(** The body of the [try] inside the loop over the deals.  [None] is an
    exception, which the handler turns into [continue]. *)
Definition classify_deal (deal : option Deal) (b : buckets) : option buckets :=
  match deal with
  | None => None
  | Some deal =>
      match get (update_time deal) with
      | None => Some b
      | Some upd =>
          if String.eqb upd "" then Some b
          else
            let deal_title := get_default (title deal) "Unnamed deal" in
            let deal_value := get_default (value deal) (NInt 0) in
            let deal_status := get (status deal) in
            let id := get (deal_id deal) in
            let deal_lost_reason :=
              get_default (lost_reason deal) "No reason provided" in
            match get_default (org_id deal) (mkOrg Missing) with
            | None => None
            | Some org =>
                let deal_company := get_default (org_name org) "Unknown company" in
                let update_date := date_part upd in
                if str_lt update_date seven_days_ago
                   && negb (status_is "open" deal_status)
                then Some b
                else if status_is "won" deal_status then
                  if in_window (get (won_time deal))
                  then Some (add_converted b (gain_line deal_company deal_value))
                  else Some b
                else if status_is "lost" deal_status then
                  if in_window (get (lost_time deal)) then
                    match title_has "churn" deal_title with
                    | None => None
                    | Some in_title =>
                        if in_title || check_if_previously_won id
                        then Some (add_churned b
                                     (churn_line deal_company deal_value deal_lost_reason))
                        else Some (add_lost_deal b
                                     (lost_line deal_company deal_lost_reason))
                    end
                  else Some b
                else if status_is "open" deal_status then
                  Some (add_to_convert b deal_company)
                else
                  match title_has "upgrade" deal_title with
                  | None => None
                  | Some true =>
                      Some (add_upgrade b (gain_line deal_company deal_value))
                  | Some false =>
                      if match title_has "downgrade" deal_title with
                         | Some x => x
                         | None => false
                         end
                      then Some (add_downgrade b (loss_line deal_company deal_value))
                      else if match title_has "trial" deal_title with
                              | Some x => x
                              | None => false
                              end && status_is "open" deal_status
                      then Some (add_new_trial b deal_company)
                      else Some b
                  end
            end
      end
  end.

(** The loop over the deals, with its [except: continue]. *)
Definition classify_all (deals : list (option Deal)) (b : buckets) : buckets :=
  fold_left
    (fun acc deal =>
       match classify_deal deal acc with
       | Some acc' => acc'
       | None => acc
       end)
    deals b.

(** The dictionary returned; [result_to_convert] is [None] when the
    dictionary has no [to_convert] key. *)
Record result : Type := mkResult {
  result_converted : list string;
  result_churned : list string;
  result_lost_deals : list string;
  result_upgrades : list string;
  result_downgrades : list string;
  result_new_trials : list (option string);
  result_to_convert : option (list (option string));
  result_new_organizations : list (option string * option scalar)
}.

Definition empty_result (with_to_convert : bool) : result :=
  mkResult [] [] [] [] [] [] (if with_to_convert then Some [] else None) [].

(** The body of the outer [try]; [None] is an exception. *)
Definition classifier_body : option result :=
  match all_deals crm with
  | Failed => None
  | Json deals_data =>
      match value_change_pass deals_data with
      | None => None
      | Some (ups, downs) =>
          if negb (succeeded deals_data) then Some (empty_result true)
          else
            match get_default (data deals_data) [] with
            | None => None
            | Some deals =>
                let b := classify_all deals (mkBuckets [] [] [] [] [] ups downs) in
                Some (mkResult (converted b) (churned b) (lost_deals b)
                        (upgrades b) (downgrades b) (new_trials b)
                        (Some (to_convert b)) get_new_organizations)
            end
      end
  end.

Definition fetch_recent_pipedrive_deals : result :=
  if negb (configured crm) then empty_result false
  else match classifier_body with
       | Some r => r
       | None => empty_result true
       end.

End Classifier.

End Deals.

(* ================================================================== *)
(** * Vocabulary of the specification                                *)
(* ================================================================== *)

Module NotionSpec.
  Import Text Re Notion.

(** The text content of an inline run. *)
Definition content_of (r : rich_text) : string :=
  match r with
  | Text c => c
  | TextLink c _ => c
  | TextBold c => c
  | TextItalic c => c
  end.

(** An inline run written back as markdown: its content between the
    delimiters of its kind; a plain run is its content. *)
Definition source_of (r : rich_text) : string :=
  match r with
  | Text c => c
  | TextLink c u => String.concat "" ["["; c; "]("; u; ")"]
  | TextBold c => String.concat "" ["**"; c; "**"]
  | TextItalic c => String.concat "" ["*"; c; "*"]
  end.

(** The pattern listed with each type in [patterns], and its position in
    that list. *)
Definition pattern_of (ty : pattern_type) : regex :=
  match ty with
  | link => link_pattern
  | bold => bold_pattern
  | italic => italic_pattern
  end.

Definition rank (ty : pattern_type) : nat :=
  match ty with
  | link => 0
  | bold => 1
  | italic => 2
  end.



(** A text without asterisk. *)
Definition star_free (s : string) : Prop :=
  Forall (fun x => other_than "*" x = true) (chars s).

End NotionSpec.

Module HarvestSpec.
Import Text Re Harvest.

(** Adjacent records in timestamp order: the timestamps are the ISO strings,
    compared as the sort compares them. *)
Definition timestamp_le (a b : MessageData) : Prop :=
  String.leb (timestamp a) (timestamp b) = true.

Definition chronological (l : list MessageData) : Prop := Sorted timestamp_le l.

(** The same channel with another history. *)
Definition with_history (ch : Channel) (answers : list response) : Channel :=
  mkChannel (channel_name ch) answers (origin ch).

(** Not older than the cutoff. *)
Definition within_window (cutoff_date : datetime) (m : Message) : Prop :=
  datetime_ltb (created_at m) cutoff_date = false.

(** A message of some page of the channel's history. *)
Definition fetched_by (ch : Channel) (m : Message) : Prop :=
  exists page, In (Page page) (history ch) /\ In m page.

(** A record the page loop appends comes from a message that passed its
    three tests. *)
Definition kept (channel : Channel) (cutoff_date : datetime) (is_thread_arg : bool)
           (m : Message) : Prop :=
  within_window cutoff_date m /\ bot (msg_author m) = false /\
  is_first_message channel is_thread_arg m = false.

End HarvestSpec.

(** Sample inputs for the harvester. *)
Module Samples.
Import Harvest.


Definition alice : Author := mkAuthor "alice" false.
Definition january (d : nat) : datetime := DateTime 2024 1 d 12 0 0 0.
Definition cutoff : datetime := january 10.

Definition starter : Message :=
  mkMessage 300 "kickoff, see https://github.com/acme/repo/pull/7" alice (january 20) [] 0.
Definition reply : Message :=
  mkMessage 200 "first reply https://github.com/acme/x and https://example.org/a"
            alice (january 15) [] 0.
Definition stale : Message := mkMessage 150 "old news" alice (january 5) [] 0.
Definition hidden : Message := mkMessage 140 "never read" alice (january 12) [] 0.

(** A thread whose origin message is newer than a message of the thread. *)
Definition thread : Channel :=
  mkChannel "design" [Page [reply]] (Some starter).

(** A channel whose first page crosses the cutoff. *)
Definition channel : Channel :=
  mkChannel "general" [Page [reply; stale; hidden]; Page [hidden]] None.

(** A thread whose history cannot be read. *)
Definition broken_thread : Channel :=
  mkChannel "design" [Fault] (Some starter).

End Samples.


Module DealsSpec.
Import Text Deals.

(** The statuses of the data model. *)
Definition status_in_model (d : option Deal) : Prop :=
  match d with
  | Some deal =>
      get (status deal) = Some "open" \/ get (status deal) = Some "won" \/
      get (status deal) = Some "lost"
  | None => True
  end.







Definition with_organizations (crm : CRM) (answer : http Organization) : CRM :=
  mkCRM (configured crm) (all_deals crm) (won_deals crm) (deal_flow crm) answer.

(** The seven lists filled from the deals. *)
Definition deal_categories (r : result) :=
  (result_converted r, result_churned r, result_lost_deals r, result_upgrades r,
   result_downgrades r, result_new_trials r, result_to_convert r).

End DealsSpec.

(** Sample inputs for the classifier. *)
Module DealSamples.
Import Text Deals.

(** Stand-ins for Python's conversions, right on the integers used below. *)
Definition show (n : number) : string :=
  match n with
  | NInt z => Harvest.str_of_Z z
  | NFloat _ => "float"
  end.
Definition show_float (q : Q) : string :=
  String.append (Harvest.str_of_Z (Qnum q)) ".0".
Definition float_of_string (s : string) : option Q := None.

Definition seven_days_ago : string := "2024-01-10".
Definition seven_days_ago_iso : string := "2024-01-10T09:00:00+00:00".

Definition acme : Org := mkOrg (Val "Acme").
Definition globex : Org := mkOrg (Val "Globex").

(** Won inside the window. *)
Definition won_deal : Deal :=
  mkDeal (Val 1%Z) (Val "Acme yearly") (Val (NInt 100)) (Val "won")
         (Val "2024-01-12 10:00:00") (Val "2024-01-11 10:00:00") Null Null (Val acme).

(** Won long ago, updated inside the window: a deal of the value-change pass. *)
Definition changed_deal : Deal :=
  mkDeal (Val 2%Z) (Val "Globex") (Val (NInt 300)) (Val "won")
         (Val "2024-01-12 10:00:00") (Val "2023-06-01 10:00:00") Null Null (Val globex).


Definition value_change : FlowItem :=
  mkFlowItem Missing Missing (Val "dealChange") (Val "2024-01-12 09:00:00")
             (Val (mkFlowData (Val (SNum 200%Q)) (Val (SNum 300%Q)))).

Definition new_org : Organization :=
  mkOrganization (Val "2024-01-11 08:00:00") (Val "Initech") (Val (SNum 12%Q)).

Definition listing : http Deal :=
  Json (mkBody (Val true) (Val [Some won_deal; Some changed_deal])).

(** A CRM that answers every request. *)
Definition crm : CRM :=
  mkCRM true listing listing
        (fun _ => Json (mkBody (Val true) (Val [Some value_change])))
        (Json (mkBody (Val true) (Val [Some new_org]))).

(** The same CRM, except that the deal listing fails. *)
Definition crm_listing_down : CRM :=
  mkCRM true Failed listing
        (fun _ => Json (mkBody (Val true) (Val [Some value_change])))
        (Json (mkBody (Val true) (Val [Some new_org]))).

(** The same CRM, except that the flow requests fail. *)
Definition crm_flow_down : CRM :=
  mkCRM true listing listing (fun _ => Failed)
        (Json (mkBody (Val true) (Val [Some new_org]))).

(** The classifier on a sample CRM. *)
Definition classify_sample (c : CRM) : result :=
  fetch_recent_pipedrive_deals show show_float float_of_string
                               seven_days_ago seven_days_ago_iso c.


(** The same deal without an organization ([org_id] is [null]), alone in
    the listing. *)
Definition orphan_churn_deal : Deal :=
  mkDeal (Val 9%Z) (Val "Churn risk Co") (Val (NInt 50)) (Val "lost")
         (Val "2024-01-12 10:00:00") Null (Val "2024-01-12 09:00:00")
         (Val "price") Null.

Definition crm_orphan : CRM :=
  mkCRM true (Json (mkBody (Val true) (Val [Some orphan_churn_deal]))) listing
        (fun _ => Json (mkBody (Val true) (Val [Some value_change])))
        (Json (mkBody (Val true) (Val [Some new_org]))).

(** The doubles 1e16 and 1e308. *)
Definition ten_to_16 : spec_float := S754_finite false 5000000000000000 1.
Definition ten_to_308 : spec_float := S754_finite false 5010420900022432 971.

Definition won_with (v : number) : Deal :=
  mkDeal (Val 3%Z) (Val "Initrode") (Val v) (Val "won")
         (Val "2024-01-12 10:00:00") (Val "2024-01-11 10:00:00") Null Null (Val acme).

(** A CRM with the given won deals. *)
Definition crm_won (deals : list (option Deal)) : CRM :=
  mkCRM true listing (Json (mkBody (Val true) (Val deals)))
        (fun _ => Json (mkBody (Val true) (Val [Some value_change])))
        (Json (mkBody (Val true) (Val [Some new_org]))).

End DealSamples.

(* ================================================================== *)
(** * Facts about the text helpers and the matcher                     *)
(* ================================================================== *)

Module TextFacts.
Import Text.

Lemma str_chars (s : string) : str (chars s) = s.
Proof. apply string_of_list_ascii_of_string. Qed.

Lemma chars_str (l : list ascii) : chars (str l) = l.
Proof. apply list_ascii_of_string_of_list_ascii. Qed.

Lemma chars_append (a b : string) : chars (a ++ b)%string = chars a ++ chars b.
Proof. induction a as [|c a IH]; simpl; [reflexivity | now rewrite <- IH]. Qed.


Lemma span_le_length (p : ascii -> bool) (s : list ascii) : span p s <= List.length s.
Proof. induction s as [|x t IH]; simpl; [lia | destruct (p x); simpl; lia]. Qed.

Lemma span_prefix (p : ascii -> bool) (s : list ascii) (j : nat) :
  j <= span p s -> Forall (fun c => p c = true) (firstn j s).
Proof.
  revert j; induction s as [|x t IH]; intros j Hj.
  - rewrite firstn_nil; constructor.
  - destruct j as [|j]; [constructor|].
    simpl in Hj |- *. destruct (p x) eqn:Hx; [|lia].
    constructor; [assumption | apply IH; lia].
Qed.

Lemma span_all (p : ascii -> bool) (a b : list ascii) :
  Forall (fun c => p c = true) a ->
  match b with [] => True | x :: _ => p x = false end ->
  span p (a ++ b) = List.length a.
Proof.
  intros Ha Hb. induction Ha as [|x a Hx _ IH]; simpl.
  - destruct b as [|y b]; simpl; [reflexivity | now rewrite Hb].
  - now rewrite Hx, IH.
Qed.

End TextFacts.

Module ReFacts.
Import Text Re TextFacts.

(** A successful greedy repetition stopped at some admissible count. *)
Lemma rep_down_some {R : Type} (lo : nat) (k : nat -> option R) (n : nat) (v : R) :
  rep_down lo k n = Some v -> exists j, lo <= j <= n /\ k j = Some v.
Proof.
  induction n as [|n IH]; simpl.
  - destruct lo as [|lo]; simpl; [|discriminate].
    destruct (k 0) eqn:Hk; [|discriminate].
    intros [= <-]. exists 0. split; [lia | assumption].
  - destruct (S n <? lo) eqn:Hlo; [discriminate|].
    apply Nat.ltb_ge in Hlo.
    destruct (k (S n)) eqn:Hk.
    + intros [= <-]. exists (S n). split; [lia | assumption].
    + intros H. destruct (IH H) as (j & Hj & Hkj). exists j. split; [lia | assumption].
Qed.

(** The longest admissible count is tried first. *)
Lemma rep_down_first {R : Type} (lo : nat) (k : nat -> option R) (n : nat) (v : R) :
  lo <= n -> k n = Some v -> rep_down lo k n = Some v.
Proof.
  intros Hlo Hk. destruct n as [|n]; simpl.
  - destruct lo; [|lia]. simpl. now rewrite Hk.
  - destruct (S n <? lo) eqn:E; [apply Nat.ltb_lt in E; lia|]. now rewrite Hk.
Qed.

(** [search_from] reports the first offset at which the pattern matches. *)
Lemma search_from_sound (r : regex) (s : list ascii) :
  forall prev i mt,
    search_from r prev s i = Some mt ->
    exists k prev',
      m_start mt = i + k /\ k <= List.length s /\
      match_here r prev' (skipn k s) = Some (m_len mt, m_caps mt).
Proof.
  induction s as [|x t IH]; intros prev i mt; simpl.
  - destruct (match_here r prev []) as [[n c]|] eqn:Hm; [|discriminate].
    intros [= <-]. exists 0, prev. simpl. repeat split; [lia | lia | assumption].
  - destruct (match_here r prev (x :: t)) as [[n c]|] eqn:Hm.
    + intros [= <-]. exists 0, prev. simpl. repeat split; [lia | lia | assumption].
    + intros H. destruct (IH _ _ _ H) as (k & prev' & Hs & Hk & Hm').
      exists (S k), prev'. simpl. repeat split; [lia | lia | assumption].
Qed.

Lemma search_sound (r : regex) (s : list ascii) (mt : match_obj) :
  search r s = Some mt ->
  exists prev,
    m_start mt <= List.length s /\
    match_here r prev (skipn (m_start mt) s) = Some (m_len mt, m_caps mt).
Proof.
  unfold search. intros H.
  destruct (search_from_sound _ _ _ _ _ H) as (k & prev' & Hs & Hk & Hm).
  simpl in Hs. subst k. exists prev'. split; assumption.
Qed.

End ReFacts.

(* ================================================================== *)
(** * The markdown compiler: proofs                                    *)
(* ================================================================== *)

Module NotionFacts.
  Import Text Re Notion NotionSpec TextFacts ReFacts.

Local Arguments Nat.sub : simpl never.

Lemma taken_length (p : ascii -> bool) (s : list ascii) (j : nat) :
  j <= span p s -> List.length s - List.length (skipn j s) = j.
Proof.
  intros Hj. pose proof (span_le_length p s). rewrite length_skipn. lia.
Qed.

Ltac star_step s a Ea :=
  destruct s as [|a s]; [discriminate|];
  destruct (Ascii.eqb a _) eqn:Ea; [|discriminate];
  apply Ascii.eqb_eq in Ea; subst a.


(** Splitting the input at a repetition count below the span. *)
Lemma take_split (p : ascii -> bool) (s : list ascii) (j : nat) :
  j <= span p s ->
  exists inner, s = inner ++ skipn j s /\ List.length inner = j /\
                Forall (fun c => p c = true) inner.
Proof.
  intros Hj. pose proof (span_le_length p s) as Hlen.
  exists (firstn j s). split; [symmetry; apply firstn_skipn|].
  split; [apply firstn_length_le; lia | now apply span_prefix].
Qed.

Lemma bold_shape prev s n c :
  match_here bold_pattern prev s = Some (n, c) ->
  exists inner rest,
    s = chars "**" ++ inner ++ chars "**" ++ rest /\
    n = 4 + List.length inner /\
    c = [(1, inner)] /\
    1 <= List.length inner /\
    Forall (fun x => other_than "*" x = true) inner.
Proof.
  unfold match_here, bold_pattern. simpl.
  star_step s a Ea. star_step s b Eb.
  intros H. apply rep_down_some in H. destruct H as (j & Hj & Hk).
  rewrite (taken_length _ _ _ (proj2 Hj)) in Hk.
  destruct (take_split _ s j (proj2 Hj)) as (inner & Hs & Hl & Hf).
  destruct (skipn j s) as [|x t]; [discriminate|].
  destruct (Ascii.eqb x "*") eqn:Ex; [|discriminate].
  apply Ascii.eqb_eq in Ex; subst x.
  destruct t as [|y t]; [discriminate|].
  destruct (Ascii.eqb y "*") eqn:Ey; [|discriminate].
  apply Ascii.eqb_eq in Ey; subst y.
  injection Hk as Hn Hc; subst n c. subst s.
  exists inner, t. rewrite firstn_app, Hl, Nat.sub_diag, firstn_O, app_nil_r.
  rewrite <- Hl at 2. rewrite firstn_all.
  repeat split; try assumption; try lia.
  cbn [List.length]. rewrite length_app. cbn [List.length]. lia.
Qed.

Lemma italic_shape prev s n c :
  match_here italic_pattern prev s = Some (n, c) ->
  exists inner rest,
    s = chars "*" ++ inner ++ chars "*" ++ rest /\
    n = 2 + List.length inner /\
    c = [(1, inner)] /\
    1 <= List.length inner /\
    Forall (fun x => other_than "*" x = true) inner.
Proof.
  unfold match_here, italic_pattern. simpl.
  star_step s a Ea.
  intros H. apply rep_down_some in H. destruct H as (j & Hj & Hk).
  rewrite (taken_length _ _ _ (proj2 Hj)) in Hk.
  destruct (take_split _ s j (proj2 Hj)) as (inner & Hs & Hl & Hf).
  destruct (skipn j s) as [|x t]; [discriminate|].
  destruct (Ascii.eqb x "*") eqn:Ex; [|discriminate].
  apply Ascii.eqb_eq in Ex; subst x.
  injection Hk as Hn Hc; subst n c. subst s.
  exists inner, t. rewrite firstn_app, Hl, Nat.sub_diag, firstn_O, app_nil_r.
  rewrite <- Hl at 2. rewrite firstn_all.
  repeat split; try assumption; try lia.
  cbn [List.length]. rewrite length_app. cbn [List.length]. lia.
Qed.

Lemma link_shape prev s n c :
  match_here link_pattern prev s = Some (n, c) ->
  exists label url rest,
    s = chars "[" ++ label ++ chars "](" ++ url ++ chars ")" ++ rest /\
    n = 4 + List.length label + List.length url /\
    c = [(2, url); (1, label)] /\
    1 <= List.length label /\ 1 <= List.length url /\
    Forall (fun x => other_than "]" x = true) label /\
    Forall (fun x => other_than ")" x = true) url.
Proof.
  unfold match_here, link_pattern. simpl.
  star_step s a Ea.
  intros H. apply rep_down_some in H. destruct H as (j & Hj & Hk).
  rewrite (taken_length _ _ _ (proj2 Hj)) in Hk.
  destruct (take_split _ s j (proj2 Hj)) as (label & Hs & Hl & Hf).
  destruct (skipn j s) as [|x t]; [discriminate|].
  destruct (Ascii.eqb x "]") eqn:Ex; [|discriminate].
  apply Ascii.eqb_eq in Ex; subst x.
  destruct t as [|y t]; [discriminate|].
  destruct (Ascii.eqb y "(") eqn:Ey; [|discriminate].
  apply Ascii.eqb_eq in Ey; subst y.
  apply rep_down_some in Hk. destruct Hk as (i & Hi & Hk).
  rewrite (taken_length _ _ _ (proj2 Hi)) in Hk.
  destruct (take_split _ t i (proj2 Hi)) as (url & Ht & Hu & Hg).
  destruct (skipn i t) as [|z u]; [discriminate|].
  destruct (Ascii.eqb z ")") eqn:Ez; [|discriminate].
  apply Ascii.eqb_eq in Ez; subst z.
  injection Hk as Hn Hc; subst n c. subst t. subst s.
  exists label, url, u.
  rewrite !firstn_app, Hl, Hu, !Nat.sub_diag, !firstn_O, !app_nil_r.
  rewrite <- Hl at 2. rewrite <- Hu at 2. rewrite !firstn_all.
  repeat split; try assumption; try lia.
  cbn [List.length]. rewrite !length_app. cbn [List.length].
  rewrite length_app. cbn [List.length]. lia.
Qed.

Lemma chars_cons (c : ascii) (s : string) : chars (String c s) = c :: chars s.
Proof. reflexivity. Qed.

Lemma chars_nil : chars EmptyString = [].
Proof. reflexivity. Qed.

Ltac chars_norm :=
  repeat first [rewrite chars_cons | rewrite chars_append | rewrite chars_str
               | rewrite chars_nil].

Lemma styled_source ty s mt :
  search (pattern_of ty) s = Some mt ->
  exists pre rest,
    s = pre ++ chars (source_of (styled ty mt)) ++ rest /\
    List.length pre = m_start mt /\
    m_len mt = List.length (chars (source_of (styled ty mt))) /\
    1 <= m_len mt.
Proof.
  intros H. destruct (search_sound _ _ _ H) as (prev & Hle & Hm).
  exists (firstn (m_start mt) s).
  assert (Hpre : List.length (firstn (m_start mt) s) = m_start mt)
    by (apply firstn_length_le; assumption).
  pose proof (firstn_skipn (m_start mt) s) as Hsplit.
  destruct ty; simpl in Hm.
  - destruct (link_shape _ _ _ _ Hm) as (label & url & rest & Hs & Hn & Hc & Hl & Hu & _).
    exists rest. unfold styled, group_text. rewrite Hc. simpl group.
    unfold source_of. simpl String.concat.
    chars_norm. rewrite Hs in Hsplit.
    repeat split; try assumption.
    + etransitivity; [symmetry; exact Hsplit|]. f_equal. simpl.
      repeat (rewrite <- app_assoc; simpl). reflexivity.
    + rewrite Hn. cbn [List.length]. rewrite !length_app. cbn [List.length].
      rewrite length_app. cbn [List.length]. lia.
    + lia.
  - destruct (bold_shape _ _ _ _ Hm) as (inner & rest & Hs & Hn & Hc & Hl & _).
    exists rest. unfold styled, group_text. rewrite Hc. simpl group.
    unfold source_of. simpl String.concat.
    chars_norm. rewrite Hs in Hsplit.
    repeat split; try assumption.
    + etransitivity; [symmetry; exact Hsplit|]. f_equal. simpl.
      repeat (rewrite <- app_assoc; simpl). reflexivity.
    + rewrite Hn. cbn [List.length]. rewrite !length_app. cbn [List.length]. lia.
    + lia.
  - destruct (italic_shape _ _ _ _ Hm) as (inner & rest & Hs & Hn & Hc & Hl & _).
    exists rest. unfold styled, group_text. rewrite Hc. simpl group.
    unfold source_of. simpl String.concat.
    chars_norm. rewrite Hs in Hsplit.
    repeat split; try assumption.
    + etransitivity; [symmetry; exact Hsplit|]. f_equal. simpl.
      repeat (rewrite <- app_assoc; simpl). reflexivity.
    + rewrite Hn. cbn [List.length]. rewrite !length_app. cbn [List.length]. lia.
    + lia.
Qed.

(** What the [for] loop over the patterns leaves in its three variables. *)
Lemma find_next_chosen text pos mt ty p :
  find_next patterns text pos None None (List.length text) = (Some mt, Some ty, p) ->
  search (pattern_of ty) (skipn pos text) = Some mt /\ p = pos + m_start mt /\
  forall ty' mt',
    search (pattern_of ty') (skipn pos text) = Some mt' ->
    p < pos + m_start mt' \/ (p = pos + m_start mt' /\ rank ty <= rank ty').
Proof.
  unfold patterns. simpl.
  destruct (search link_pattern (skipn pos text)) as [ml|] eqn:El;
  destruct (search bold_pattern (skipn pos text)) as [mb|] eqn:Eb;
  destruct (search italic_pattern (skipn pos text)) as [mi|] eqn:Ei;
  repeat match goal with
         | |- context [?a <? ?b] => let E := fresh "E" in destruct (a <? b) eqn:E
         end;
  intros [= <- <- <-]; (split; [assumption|]); (split; [reflexivity|]);
  repeat match goal with
         | H : (_ <? _) = true |- _ => apply Nat.ltb_lt in H
         | H : (_ <? _) = false |- _ => apply Nat.ltb_ge in H
         end;
  intros [| |] mt' Hs; simpl in Hs |- *;
  try (rewrite Hs in *; discriminate);
  match goal with
  | H1 : search ?r _ = Some ?a, H2 : search ?r _ = Some ?b |- _ =>
      rewrite H1 in H2; injection H2 as ->
  end; lia.
Qed.



(** One iteration of the [while] loop that found a match: the unread text
    splits into the plain prefix, the span and the rest. *)
Lemma step_split text pos mt ty p :
  find_next patterns text pos None None (List.length text) = (Some mt, Some ty, p) ->
  pos <= List.length text ->
  slice text pos p ++ chars (source_of (styled ty mt)) ++ skipn (p + m_len mt) text
    = skipn pos text /\
  (p <= pos -> slice text pos p = []) /\
  pos < p + m_len mt <= List.length text.
Proof.
  intros F Hpos. destruct (find_next_chosen _ _ _ _ _ F) as (Hs & -> & _).
  destruct (styled_source _ _ _ Hs) as (pre & rest & Hsplit & Hpre & Hlen & Hpos1).
  assert (Htot : List.length (skipn pos text) = List.length text - pos)
    by apply length_skipn.
  assert (Hslice : slice text pos (pos + m_start mt) = pre).
  { unfold slice. replace (pos + m_start mt - pos) with (m_start mt) by lia.
    rewrite Hsplit, <- Hpre, firstn_app, Nat.sub_diag, firstn_O, app_nil_r.
    apply firstn_all. }
  assert (Hrest : skipn (pos + m_start mt + m_len mt) text = rest).
  { replace (pos + m_start mt + m_len mt) with ((m_start mt + m_len mt) + pos) by lia.
    rewrite <- skipn_skipn, Hsplit, <- Hpre, Hlen, app_assoc, <- length_app.
    rewrite skipn_app, Nat.sub_diag, skipn_all. reflexivity. }
  rewrite Hslice, Hrest. split; [symmetry; exact Hsplit|]. split.
  - intros Hle. assert (m_start mt = 0) by lia.
    destruct pre; [reflexivity | simpl in Hpre; lia].
  - rewrite Hsplit in Htot. rewrite !length_app in Htot. lia.
Qed.

Lemma parse_loop_S fuel text current_pos rich :
  parse_loop (S fuel) text current_pos rich =
  if current_pos <? List.length text then
    match find_next patterns text current_pos None None (List.length text) with
    | (Some mt, Some ty, next_pos) =>
        parse_loop fuel text (next_pos + m_len mt)
          ((if current_pos <? next_pos
            then rich ++ [Text (str (slice text current_pos next_pos))]
            else rich) ++ [styled ty mt])
    | _ =>
        if current_pos <? List.length text
        then rich ++ [Text (str (skipn current_pos text))]
        else rich
    end
  else rich.
Proof. reflexivity. Qed.


(** [len(text)] iterations are enough: more fuel changes nothing. *)
Lemma parse_loop_fuel (fuel : nat) :
  forall text pos acc extra,
    pos <= List.length text -> List.length text - pos <= fuel ->
    parse_loop (fuel + extra) text pos acc = parse_loop fuel text pos acc.
Proof.
  induction fuel as [|fuel IH]; intros text pos acc extra Hpos Hfuel.
  - simpl. destruct extra as [|extra]; [reflexivity|]. rewrite parse_loop_S.
    destruct (pos <? List.length text) eqn:E; [|reflexivity].
    apply Nat.ltb_lt in E. lia.
  - change (S fuel + extra) with (S (fuel + extra)). rewrite !parse_loop_S.
    destruct (pos <? List.length text) eqn:E; [|reflexivity].
    destruct (find_next patterns text pos None None (List.length text))
      as [[[mt|] [ty|]] p] eqn:F; try reflexivity.
    destruct (step_split _ _ _ _ _ F Hpos) as (_ & _ & Hnext).
    cbv zeta. apply IH; lia.
Qed.




Lemma parse_loop_acc (fuel : nat) :
  forall text pos acc,
    parse_loop fuel text pos acc = acc ++ parse_loop fuel text pos [].
Proof.
  induction fuel as [|fuel IH]; intros text pos acc.
  - simpl. now rewrite app_nil_r.
  - rewrite !parse_loop_S.
    destruct (pos <? List.length text); [|now rewrite app_nil_r].
    destruct (find_next patterns text pos None None (List.length text))
      as [[[mt|] [ty|]] p]; try reflexivity.
    rewrite IH. rewrite (IH _ _ (_ ++ _)).
    destruct (pos <? p); simpl; rewrite <- ?app_assoc; reflexivity.
Qed.

Lemma search_hit r s n c :
  match_here r None s = Some (n, c) -> search r s = Some (MatchObj 0 n c).
Proof. unfold search. intros H. destruct s; simpl; now rewrite H. Qed.

Lemma search_later r s mt :
  match_here r None s = None -> search r s = Some mt -> 1 <= m_start mt.
Proof.
  unfold search. intros H. destruct s as [|x t]; simpl; rewrite H; [discriminate|].
  intros F. destruct (search_from_sound _ _ _ _ _ F) as (k & _ & Hk & _). lia.
Qed.

Lemma bold_at_cursor prev inner rest :
  1 <= List.length inner ->
  Forall (fun x => other_than "*" x = true) inner ->
  match_here bold_pattern prev (chars "**" ++ inner ++ chars "**" ++ rest)
  = Some (4 + List.length inner, [(1, inner)]).
Proof.
  intros Hlen Hall. unfold match_here, bold_pattern. simpl.
  assert (Hspan : span (other_than "*") (inner ++ "*"%char :: "*"%char :: rest)
                  = List.length inner) by (apply span_all; [assumption | reflexivity]).
  rewrite Hspan. apply rep_down_first; [assumption|].
  rewrite skipn_app, Nat.sub_diag, skipn_all. simpl.
  rewrite length_app. cbn [List.length].
  replace (List.length inner + S (S (List.length rest)) - (List.length inner + S (S (List.length rest))))
    with 0 by lia.
  replace (List.length inner + S (S (List.length rest)) - S (S (List.length rest)))
    with (List.length inner) by lia.
  rewrite firstn_app, Nat.sub_diag, firstn_O, app_nil_r, firstn_all.
  f_equal. f_equal. lia.
Qed.


Lemma italic_not_at_bold prev s :
  match_here italic_pattern prev ("*"%char :: "*"%char :: s) = None.
Proof. reflexivity. Qed.

Lemma link_not_at_star prev s :
  match_here link_pattern prev ("*"%char :: s) = None.
Proof. reflexivity. Qed.

(** A bold span at the cursor is the match the loop chooses. *)
Lemma find_next_bold text pos inner rest :
  skipn pos text = chars "**" ++ inner ++ chars "**" ++ rest ->
  1 <= List.length inner ->
  Forall (fun x => other_than "*" x = true) inner ->
  find_next patterns text pos None None (List.length text)
  = (Some (MatchObj 0 (4 + List.length inner) [(1, inner)]), Some bold, pos).
Proof.
  intros Hs Hlen Hall.
  assert (Hpos : pos < List.length text).
  { destruct (Nat.lt_ge_cases pos (List.length text)) as [H|H]; [assumption|].
    rewrite skipn_all2 in Hs by assumption. discriminate. }
  pose proof (search_hit _ _ _ _ (bold_at_cursor None inner rest Hlen Hall)) as Hb.
  unfold patterns. cbn [find_next]. rewrite Hs, Hb. cbn [m_start].
  rewrite Nat.add_0_r.
  assert (Hl : forall ml, search link_pattern (chars "**" ++ inner ++ chars "**" ++ rest)
                          = Some ml -> 1 <= m_start ml)
    by (intros ml; apply search_later; reflexivity).
  assert (Hi : forall mi, search italic_pattern (chars "**" ++ inner ++ chars "**" ++ rest)
                          = Some mi -> 1 <= m_start mi)
    by (intros mi; apply search_later; reflexivity).
  destruct (search link_pattern _) as [ml|]; [specialize (Hl ml eq_refl)|];
  destruct (search italic_pattern _) as [mi|]; try specialize (Hi mi eq_refl);
  repeat match goal with
         | |- context [?a <? ?b] =>
             let E := fresh "E" in
             destruct (a <? b) eqn:E;
             [apply Nat.ltb_lt in E | apply Nat.ltb_ge in E]; try lia
         end; reflexivity.
Qed.

Lemma bold_span_emitted (inner rest : string) :
  inner <> EmptyString ->
  star_free inner ->
  exists more,
    parse_rich_text_with_links (String.concat "" ["**"; inner; "**"; rest])
    = TextBold inner :: more.
Proof.
  intros Hne Hall.
  assert (Hlen : 1 <= List.length (chars inner))
    by (destruct inner; [congruence | simpl; lia]).
  unfold parse_rich_text_with_links.
  set (text := chars (String.concat "" ["**"; inner; "**"; rest])).
  assert (Ht : skipn 0 text = chars "**" ++ chars inner ++ chars "**" ++ chars rest).
  { unfold text. simpl String.concat. chars_norm. reflexivity. }
  pose proof (find_next_bold text 0 _ _ Ht Hlen Hall) as F.
  assert (Hpos : 0 < List.length text).
  { simpl in Ht. rewrite Ht. simpl. lia. }
  destruct (List.length text) as [|n] eqn:En; [lia|].
  rewrite parse_loop_S, En, F.
  replace (0 <? S n) with true by (symmetry; now apply Nat.ltb_lt).
  rewrite Nat.ltb_irrefl. rewrite parse_loop_acc.
  unfold styled, group_text. cbn [m_caps group Nat.eqb].
  pose proof (str_chars inner) as Hsc. unfold str, chars in *. rewrite Hsc.
  eexists. reflexivity.
Qed.


(** C6, the scenario and the selection rule.  The sample line compiles to
    one paragraph whose runs are bold "Bold", plain " and ", italic "italic",
    plain " and ", link ("link", "http://x").  Whenever the loop over the
    patterns selects a match, it is the search result of its pattern, no
    other pattern's result starts earlier, and a result starting at the same
    position belongs to a pattern listed no earlier (link, bold, italic).
    Hence a bold span that starts at the scan position is emitted whole, as
    one bold run. *)
Theorem C6_nearest_match_and_bold_at_cursor :
  convert_markdown_to_blocks "**Bold** and *italic* and [link](http://x)"
  = [Paragraph [TextBold "Bold"; Text " and "; TextItalic "italic"; Text " and ";
                TextLink "link" "http://x"]]
  /\ (forall text pos mt ty p,
         find_next patterns text pos None None (List.length text)
         = (Some mt, Some ty, p) ->
         search (pattern_of ty) (skipn pos text) = Some mt /\
         p = pos + m_start mt /\
         forall ty' mt',
           search (pattern_of ty') (skipn pos text) = Some mt' ->
           p < pos + m_start mt' \/ (p = pos + m_start mt' /\ rank ty <= rank ty'))
  /\ (forall inner rest : string,
         inner <> EmptyString -> star_free inner ->
         exists more,
           parse_rich_text_with_links (String.concat "" ["**"; inner; "**"; rest])
           = TextBold inner :: more).
Proof.
  split; [vm_compute; reflexivity|].
  split; [exact find_next_chosen | exact bold_span_emitted].
Qed.

Lemma C6_witness :
  exists more,
    parse_rich_text_with_links (String.concat "" ["**"; "Bold"; "**"; " and *it*"])
    = TextBold "Bold" :: more.
Proof.
  apply (proj2 (proj2 C6_nearest_match_and_bold_at_cursor)).
  - discriminate.
  - unfold star_free. simpl. repeat constructor.
Defined.

(** C6 as stated fails: in the line below the text [**b**] is a bold span
    (the bold pattern matches there, with interior "b"), yet the italic
    match that starts at the first asterisk swallows its opening asterisk
    and the interior "b" comes out as an italic run. *)
Lemma C6_bold_interior_emitted_as_italic :
  search bold_pattern (chars "*a **b**") = Some (MatchObj 3 5 [(1, chars "b")])
  /\ convert_markdown_to_blocks "*a **b**"
     = [Paragraph [TextItalic "a "; TextItalic "b"; Text "*"]].
Proof. split; vm_compute; reflexivity. Qed.



End NotionFacts.

(* ================================================================== *)
(** * The harvester: proofs                                            *)
(* ================================================================== *)

Module HarvestFacts.
Import Text Re Harvest HarvestSpec TextFacts ReFacts.

Section Sorting.

Lemma ltb_leb (a b : string) : String.ltb a b = true -> String.leb a b = true.
Proof.
  unfold String.ltb, String.leb.
  now destruct (String.compare a b).
Qed.

Lemma not_ltb_leb (a b : string) : String.ltb a b = false -> String.leb b a = true.
Proof.
  unfold String.ltb, String.leb. rewrite (String.compare_antisym a b).
  now destruct (String.compare b a).
Qed.

Lemma insert_hd (x a : MessageData) (l : list MessageData) :
  timestamp_le a x -> HdRel timestamp_le a l ->
  HdRel timestamp_le a (insert_by_timestamp x l).
Proof.
  intros Hax Hl. destruct l as [|y t]; simpl.
  - constructor. assumption.
  - destruct (String.ltb (timestamp y) (timestamp x)); constructor;
      [now inversion Hl | assumption].
Qed.

Lemma insert_sorted (x : MessageData) (l : list MessageData) :
  chronological l -> chronological (insert_by_timestamp x l).
Proof.
  unfold chronological. induction l as [|y t IH]; intros Hs; simpl.
  - repeat constructor.
  - apply Sorted_inv in Hs. destruct Hs as [Ht Hy].
    destruct (String.ltb (timestamp y) (timestamp x)) eqn:E.
    + constructor; [now apply IH|]. apply insert_hd; [|assumption].
      now apply ltb_leb.
    + constructor; [now constructor|]. constructor. now apply not_ltb_leb.
Qed.

Lemma sort_sorted (l : list MessageData) : chronological (sort_by_timestamp l).
Proof.
  induction l as [|x l IH]; simpl; [constructor | now apply insert_sorted].
Qed.

Lemma insert_in (x r : MessageData) (l : list MessageData) :
  In r (insert_by_timestamp x l) <-> r = x \/ In r l.
Proof.
  induction l as [|y t IH]; simpl.
  - intuition congruence.
  - destruct (String.ltb (timestamp y) (timestamp x)); simpl; [rewrite IH|];
      intuition congruence.
Qed.

Lemma sort_in (r : MessageData) (l : list MessageData) :
  In r (sort_by_timestamp l) <-> In r l.
Proof.
  induction l as [|x l IH]; simpl; [reflexivity|].
  rewrite insert_in, IH. intuition congruence.
Qed.

End Sorting.

Section Loop.

Variable channel : Channel.
Variable cutoff_date : datetime.
Variable is_thread_arg : bool.
Variable thread_name_arg : option string.

Abbreviation process_page := (process_page channel cutoff_date is_thread_arg thread_name_arg).
Abbreviation fetch_loop := (fetch_loop channel cutoff_date is_thread_arg thread_name_arg).
Abbreviation message_data := (message_data channel is_thread_arg thread_name_arg).
Abbreviation is_first_message := (is_first_message channel is_thread_arg).

Abbreviation kept := (kept channel cutoff_date is_thread_arg).

Lemma process_page_inv (Q : MessageData -> Prop) (fetched : list Message) :
  forall messages,
    Forall Q messages ->
    (forall m, In m fetched -> kept m -> Q (message_data m)) ->
    Forall Q (fst (process_page fetched messages)).
Proof.
  induction fetched as [|m rest IH]; intros messages Hm Hq; simpl; [assumption|].
  destruct (datetime_ltb (created_at m) cutoff_date) eqn:Ec; [assumption|].
  destruct (bot (msg_author m)) eqn:Eb; [apply IH; [assumption | intros; apply Hq; simpl; auto]|].
  destruct (is_first_message m) eqn:Ef; [apply IH; [assumption | intros; apply Hq; simpl; auto]|].
  apply IH.
  - apply Forall_app. split; [assumption|]. constructor; [|constructor].
    apply Hq; [now left | repeat split; assumption].
  - intros; apply Hq; simpl; auto.
Qed.

Lemma fetch_loop_page (fetched : list Message) later last_id messages requests :
  fetched <> [] ->
  fetch_loop (Page fetched :: later) last_id messages requests =
  let '(messages', fetch_more) := process_page fetched messages in
  if fetch_more && negb (List.length fetched <? 100)
  then fetch_loop later (option_map msg_id (List.last (map Some fetched) None))
                  messages' (requests ++ [before_option last_id])
  else (Some messages', requests ++ [before_option last_id]).
Proof. destruct fetched; [congruence | reflexivity]. Qed.

Lemma fetch_loop_inv (Q : MessageData -> Prop) (answers : list response) :
  forall last_id messages requests res,
    Forall Q messages ->
    (forall page m, In (Page page) answers -> In m page -> kept m -> Q (message_data m)) ->
    fst (fetch_loop answers last_id messages requests) = Some res ->
    Forall Q res.
Proof.
  induction answers as [|a later IH]; intros last_id messages requests res Hm Hq.
  - simpl. now intros [= <-].
  - destruct a as [fetched|]; [|simpl; discriminate].
    destruct fetched as [|m0 fetched0]; [simpl; now intros [= <-]|].
    rewrite fetch_loop_page by discriminate.
    pose proof (process_page_inv Q (m0 :: fetched0) messages Hm) as Hp.
    destruct (process_page (m0 :: fetched0) messages) as [messages' fetch_more].
    simpl in Hp.
    assert (Hq' : Forall Q messages').
    { apply Hp. intros m Hin. apply (Hq (m0 :: fetched0)); [now left | assumption]. }
    destruct (fetch_more && negb (List.length (m0 :: fetched0) <? 100)).
    + apply IH; [assumption|]. intros page m Hin. apply Hq. now right.
    + simpl. now intros [= <-].
Qed.

(** Once a message older than the cutoff is met, what follows it on the page
    is not looked at. *)
Lemma process_page_cut (fresh : list Message) (old : Message) (rest : list Message) :
  Forall (within_window cutoff_date) fresh ->
  datetime_ltb (created_at old) cutoff_date = true ->
  forall messages,
    process_page (fresh ++ old :: rest) messages
    = (fst (process_page fresh messages), false).
Proof.
  intros Hf Ho. induction Hf as [|m fresh Hm _ IH]; intros messages; simpl.
  - now rewrite Ho.
  - unfold within_window in Hm. rewrite Hm.
    destruct (bot (msg_author m)); [apply IH|].
    destruct (is_first_message m); apply IH.
Qed.

Lemma fetch_loop_cut (fresh : list Message) (old : Message) (rest : list Message)
      (later : list response) :
  Forall (within_window cutoff_date) fresh ->
  datetime_ltb (created_at old) cutoff_date = true ->
  forall pre last_id messages requests,
    fetch_loop (pre ++ Page (fresh ++ old :: rest) :: later) last_id messages requests
    = fetch_loop (pre ++ [Page (fresh ++ [old])]) last_id messages requests
    /\ List.length (snd (fetch_loop (pre ++ [Page (fresh ++ [old])])
                                    last_id messages requests))
       <= List.length requests + List.length pre + 1.
Proof.
  intros Hf Ho pre. induction pre as [|a pre IH]; intros last_id messages requests.
  - cbn [app]. rewrite !fetch_loop_page by (destruct fresh; discriminate).
    rewrite !process_page_cut by assumption. cbn [andb snd].
    split; [reflexivity|]. rewrite length_app. simpl. lia.
  - cbn [app]. destruct a as [fetched|];
      [|simpl; split; [reflexivity | rewrite length_app; simpl; lia]].
    destruct fetched as [|m0 fetched0];
      [simpl; split; [reflexivity | rewrite length_app; simpl; lia]|].
    rewrite !fetch_loop_page by discriminate.
    destruct (process_page (m0 :: fetched0) messages) as [messages' fetch_more].
    destruct (fetch_more && negb (List.length (m0 :: fetched0) <? 100)).
    + destruct (IH (option_map msg_id (List.last (map Some (m0 :: fetched0)) None))
                   messages' (requests ++ [before_option last_id])) as [E L].
      split; [exact E|]. rewrite length_app in L. simpl in L. simpl. lia.
    + split; [reflexivity|]. cbn [snd]. rewrite length_app. simpl. lia.
Qed.

End Loop.


Section Shape.

Variable channel : Channel.
Variable cutoff_date : datetime.
Variable is_thread_arg : bool.
Variable thread_name_arg : option string.

Abbreviation result := (fetch_messages_from_past channel cutoff_date is_thread_arg thread_name_arg).
Abbreviation paginated :=
  (fst (fetch_loop channel cutoff_date is_thread_arg thread_name_arg
                   (history channel) None [] [])).
Abbreviation starter_data := (first_message_data channel is_thread_arg thread_name_arg).
Abbreviation record_of := (message_data channel is_thread_arg thread_name_arg).

Lemma harvest_shape :
  match paginated with
  | Some messages =>
      fst (harvest channel cutoff_date is_thread_arg thread_name_arg)
      = Some result /\
      result = match thread_starter channel is_thread_arg with
               | Some fm => starter_data fm :: sort_by_timestamp messages
               | None => sort_by_timestamp messages
               end
  | None =>
      fst (harvest channel cutoff_date is_thread_arg thread_name_arg) = None /\
      result = []
  end.
Proof.
  unfold fetch_messages_from_past, harvest.
  destruct (fetch_loop channel cutoff_date is_thread_arg thread_name_arg
                       (history channel) None [] []) as [[messages|] requests];
    simpl; split; reflexivity.
Qed.

Lemma paginated_inv (Q : MessageData -> Prop) (messages : list MessageData) :
  (forall m, fetched_by channel m -> kept channel cutoff_date is_thread_arg m ->
             Q (record_of m)) ->
  paginated = Some messages -> Forall Q (sort_by_timestamp messages).
Proof.
  intros Hq Hp. apply Forall_forall. intros r Hr. apply (proj1 (sort_in _ _)) in Hr.
  revert r Hr. apply Forall_forall.
  apply (fetch_loop_inv channel cutoff_date is_thread_arg thread_name_arg Q
                        (history channel) None [] [] messages);
    [constructor | | assumption].
  intros page m Hpage Hm. apply Hq. now exists page.
Qed.

End Shape.

(** The loops read the channel only for its name and its origin message. *)
Lemma process_page_ext (ch ch' : Channel) cutoff it tn :
  channel_name ch = channel_name ch' -> origin ch = origin ch' ->
  forall fetched messages,
    process_page ch cutoff it tn fetched messages
    = process_page ch' cutoff it tn fetched messages.
Proof.
  intros Hn Ho fetched. induction fetched as [|m rest IH]; intros messages; simpl;
    [reflexivity|].
  unfold is_first_message, first_message, message_data. rewrite Hn, Ho.
  destruct (datetime_ltb (created_at m) cutoff); [reflexivity|].
  destruct (bot (msg_author m)); [apply IH|].
  destruct (it && _); apply IH.
Qed.

Lemma fetch_loop_ext (ch ch' : Channel) cutoff it tn :
  channel_name ch = channel_name ch' -> origin ch = origin ch' ->
  forall answers last_id messages requests,
    fetch_loop ch cutoff it tn answers last_id messages requests
    = fetch_loop ch' cutoff it tn answers last_id messages requests.
Proof.
  intros Hn Ho answers. induction answers as [|a later IH];
    intros last_id messages requests; [reflexivity|].
  destruct a as [[|m0 fetched0]|]; try reflexivity.
  rewrite !fetch_loop_page by discriminate.
  rewrite (process_page_ext ch ch' cutoff it tn Hn Ho).
  destruct (process_page ch' cutoff it tn (m0 :: fetched0) messages) as [ms more].
  destruct (more && _); [apply IH | reflexivity].
Qed.

(** C1 (amended).  The records gathered by pagination come out in
    non-decreasing timestamp order.  When no thread-origin record is
    prepended the whole collection is so ordered; a prepended origin record
    sits in front of the ordered records whatever its timestamp, and the
    whole collection is ordered exactly when that timestamp is no later than
    the one of the record that follows. *)
Theorem C1_chronological_after_the_origin
        (ch : Channel) (cutoff : datetime) (it : bool) (tn : option string) :
  let res := fetch_messages_from_past ch cutoff it tn in
  (thread_starter ch it = None -> chronological res)
  /\ (forall fm, thread_starter ch it = Some fm ->
                 chronological (tl res) /\
                 (chronological res <->
                  HdRel timestamp_le (first_message_data ch it tn fm) (tl res))).
Proof.
  intros res. pose proof (harvest_shape ch cutoff it tn) as Hs.
  destruct (fst (fetch_loop ch cutoff it tn (history ch) None [] []))
    as [messages|]; destruct Hs as [_ Hres]; fold res in Hres; rewrite Hres.
  - split.
    + intros ->. apply sort_sorted.
    + intros fm ->. cbn [tl]. split; [apply sort_sorted|]. split.
      * intros H. now apply Sorted_inv in H.
      * intros H. constructor; [apply sort_sorted | assumption].
  - split; [constructor|]. intros fm _. cbn [tl].
    split; [constructor|]. split; constructor.
Qed.

(** C2.  Every record of the result is the origin record of the thread or
    is built from a fetched message that is not older than the cutoff.  And
    when a page holds a message older than the cutoff after messages that
    are not, the result and the history requests made are those of the
    history cut right after that message: the rest of the page and all later
    pages play no part, and no request follows the one that fetched the
    page. *)
Theorem C2_cutoff_ends_pagination
        (ch : Channel) (cutoff : datetime) (it : bool) (tn : option string) :
  (forall r, In r (fetch_messages_from_past ch cutoff it tn) ->
             (exists fm, thread_starter ch it = Some fm /\
                         r = first_message_data ch it tn fm)
             \/ (exists m, fetched_by ch m /\ within_window cutoff m /\
                           r = message_data ch it tn m))
  /\ (forall pre fresh old rest later,
         history ch = pre ++ Page (fresh ++ old :: rest) :: later ->
         Forall (within_window cutoff) fresh ->
         datetime_ltb (created_at old) cutoff = true ->
         harvest ch cutoff it tn
         = harvest (with_history ch (pre ++ [Page (fresh ++ [old])])) cutoff it tn
         /\ List.length (history_requests ch cutoff it tn) <= List.length pre + 1).
Proof.
  split.
  - intros r Hr. pose proof (harvest_shape ch cutoff it tn) as Hs.
    destruct (fst (fetch_loop ch cutoff it tn (history ch) None [] []))
      as [messages|] eqn:Hp; destruct Hs as [_ Hres]; rewrite Hres in Hr;
      [|contradiction].
    assert (Hall : Forall (fun r => exists m, fetched_by ch m /\ within_window cutoff m /\
                                              r = message_data ch it tn m)
                          (sort_by_timestamp messages)).
    { apply (paginated_inv ch cutoff it tn); [|assumption].
      intros m Hf (Hw & _ & _). now exists m. }
    rewrite Forall_forall in Hall.
    destruct (thread_starter ch it) as [fm|].
    + destruct Hr as [<-|Hr]; [left; now exists fm | right; now apply Hall].
    + right. now apply Hall.
  - intros pre fresh old rest later Hh Hf Ho.
    destruct (fetch_loop_cut ch cutoff it tn fresh old rest later Hf Ho pre None [] [])
      as [Hcut Hlen].
    unfold history_requests, harvest. cbn [history with_history].
    rewrite Hh, Hcut.
    rewrite (fetch_loop_ext ch (with_history ch (pre ++ [Page (fresh ++ [old])]))
                            cutoff it tn eq_refl eq_refl) in Hlen |- *.
    split.
    + reflexivity.
    + destruct (fetch_loop _ cutoff it tn (pre ++ [Page (fresh ++ [old])]) None [] [])
        as [[ms|] rq]; simpl in *; lia.
Qed.


(** The records gathered by pagination carry no URL with "github.com". *)
Lemma paginated_urls_filtered
      (ch : Channel) (cutoff : datetime) (it : bool) (tn : option string)
      (messages : list MessageData) :
  fst (fetch_loop ch cutoff it tn (history ch) None [] []) = Some messages ->
  Forall (fun r => Forall (fun url => not_github url = true) (urls r))
         (sort_by_timestamp messages).
Proof.
  apply (paginated_inv ch cutoff it tn). intros m _ _. simpl.
  apply Forall_forall. intros url Hin. now apply filter_In in Hin.
Qed.

Lemma C1_witness :
  chronological (fetch_messages_from_past Samples.channel Samples.cutoff false None).
Proof.
  apply (proj1 (C1_chronological_after_the_origin
                  Samples.channel Samples.cutoff false None)).
  reflexivity.
Defined.

(** C1 as stated fails on a thread: the origin record is put in front of a
    record with an earlier timestamp. *)
Lemma C1_thread_origin_out_of_order :
  fetch_messages_from_past Samples.thread Samples.cutoff true (Some "kickoff")
  = [first_message_data Samples.thread true (Some "kickoff") Samples.starter;
     message_data Samples.thread true (Some "kickoff") Samples.reply]
  /\ timestamp (first_message_data Samples.thread true (Some "kickoff") Samples.starter)
     = "2024-01-20T12:00:00+00:00"
  /\ timestamp (message_data Samples.thread true (Some "kickoff") Samples.reply)
     = "2024-01-15T12:00:00+00:00"
  /\ ~ chronological
       (fetch_messages_from_past Samples.thread Samples.cutoff true (Some "kickoff")).
Proof.
  split; [vm_compute; reflexivity|]. split; [vm_compute; reflexivity|].
  split; [vm_compute; reflexivity|].
  intros H. apply Sorted_inv in H. destruct H as [_ H].
  vm_compute in H. inversion H as [|b l Hle]. vm_compute in Hle. discriminate.
Qed.

Lemma C2_witness :
  harvest Samples.channel Samples.cutoff false None
  = harvest (with_history Samples.channel [Page [Samples.reply; Samples.stale]])
            Samples.cutoff false None
  /\ List.length (history_requests Samples.channel Samples.cutoff false None) <= 0 + 1.
Proof.
  apply (proj2 (C2_cutoff_ends_pagination Samples.channel Samples.cutoff false None)
               [] [Samples.reply] Samples.stale [Samples.hidden]
               [Page [Samples.hidden]]).
  - reflexivity.
  - repeat constructor.
  - reflexivity.
Defined.


(** C3 as stated fails when reading the history raises.  The thread below
    has an origin message, not bot-authored; its history request raises, the
    handler returns the empty list, and the origin message has no record in
    the result. *)
Lemma C3_fault_leaves_no_origin_record :
  origin Samples.broken_thread = Some Samples.starter
  /\ bot (msg_author Samples.starter) = false
  /\ history Samples.broken_thread = [Fault]
  /\ fetch_messages_from_past Samples.broken_thread Samples.cutoff true (Some "kickoff")
     = [].
Proof. repeat split. Qed.

(** C8 fails on the origin record: harvesting the sample thread, whose
    origin message links to github.com, returns the origin record at index 0
    with that link among its URLs, while the link of the paginated message is
    dropped. *)
Theorem C8_origin_record_keeps_github_links :
  map urls (fetch_messages_from_past Samples.thread Samples.cutoff true (Some "kickoff"))
  = [["https://github.com/acme/repo/pull/7"]; ["https://example.org/a"]]
  /\ not_github "https://github.com/acme/repo/pull/7" = false.
Proof. split; vm_compute; reflexivity. Qed.

End HarvestFacts.

(* ================================================================== *)
(** * The deal classifier: proofs                                      *)
(* ================================================================== *)

Module DealsFacts.
Import Text Deals DealsSpec.

Section Chain.

Variable show_number : number -> string.
Variable seven_days_ago : string.
Variable crm : CRM.

Abbreviation classify_deal := (classify_deal show_number seven_days_ago crm).
Abbreviation classify_all := (classify_all show_number seven_days_ago crm).

Ltac split_cases :=
  repeat match goal with
         | |- context [match ?x with _ => _ end] => destruct x eqn:?; simpl
         | |- context [if ?x then _ else _] => destruct x eqn:?; simpl
         end.

(** The chain never reaches its last branch: [new_trials] is left alone. *)
Lemma classify_deal_new_trials (d : option Deal) (b b' : buckets) :
  classify_deal d b = Some b' -> new_trials b' = new_trials b.
Proof.
  unfold Deals.classify_deal. cbv zeta.
  split_cases; intros [= <-]; try reflexivity.
  rewrite andb_false_r in *. discriminate.
Qed.

Lemma status_is_eq (s : string) (o : option string) :
  status_is s o = true <-> o = Some s.
Proof.
  destruct o as [t|]; simpl; [|split; discriminate].
  rewrite String.eqb_eq. split; [now intros -> | now intros [= ->]].
Qed.

(** With one of the three statuses the chain stops at a status branch. *)
Lemma classify_deal_title_branches (d : option Deal) (b b' : buckets) :
  status_in_model d ->
  classify_deal d b = Some b' ->
  upgrades b' = upgrades b /\ downgrades b' = downgrades b.
Proof.
  unfold Deals.classify_deal, status_in_model. cbv zeta.
  destruct d as [deal|]; [|discriminate]. intros Hst.
  assert (Hone : status_is "open" (get (status deal)) = true \/
                 status_is "won" (get (status deal)) = true \/
                 status_is "lost" (get (status deal)) = true)
    by (rewrite !status_is_eq; assumption).
  clear Hst. revert Hone.
  split_cases; intros Hone; intros [= <-]; try (split; reflexivity);
    destruct Hone as [H|[H|H]]; discriminate.
Qed.

Lemma classify_all_chain (deals : list (option Deal)) :
  forall b,
    new_trials (classify_all deals b) = new_trials b /\
    (Forall status_in_model deals ->
     upgrades (classify_all deals b) = upgrades b /\
     downgrades (classify_all deals b) = downgrades b).
Proof.
  unfold Deals.classify_all.
  induction deals as [|d deals IH]; intros b; simpl; [repeat split|].
  destruct (classify_deal d b) as [b'|] eqn:E.
  - destruct (IH b') as [Hn Hu]. split.
    + rewrite Hn. now apply classify_deal_new_trials with (d := d).
    + intros Hall. inversion Hall as [|x l Hd Hl]; subst.
      destruct (Hu Hl) as [-> ->].
      now apply classify_deal_title_branches with (d := d).
  - destruct (IH b) as [Hn Hu]. split; [assumption|].
    intros Hall. inversion Hall; subst. auto.
Qed.






End Chain.

Section Summing.

Variable compensated_sum : bool.
Variable long_max : Z.


End Summing.

Section Classifier.

Variable show_number : number -> string.
Variable show_float : Q -> string.
Variable float_of_string : string -> option Q.
Variable seven_days_ago : string.
Variable seven_days_ago_iso : string.

Abbreviation classify := (fetch_recent_pipedrive_deals
                            show_number show_float float_of_string
                            seven_days_ago seven_days_ago_iso).
Abbreviation body_of := (classifier_body
                           show_number show_float float_of_string
                           seven_days_ago seven_days_ago_iso).
Abbreviation pass := (value_change_pass show_float float_of_string seven_days_ago_iso).




(** The deal categories do not depend on the answer to the organizations
    request. *)
Lemma value_change_loop_orgs (crm : CRM) (answer : http Organization) (deals : list Deal) :
  forall ups downs,
    value_change_loop show_float float_of_string seven_days_ago_iso
                      (with_organizations crm answer) deals ups downs
    = value_change_loop show_float float_of_string seven_days_ago_iso
                        crm deals ups downs.
Proof.
  induction deals as [|d deals IH]; intros ups downs; simpl; [reflexivity|].
  change (get_deal_value_change show_float float_of_string seven_days_ago_iso
            (with_organizations crm answer))
    with (get_deal_value_change show_float float_of_string seven_days_ago_iso crm).
  destruct (get_deal_value_change _ _ _ crm _ _); [|reflexivity].
  match goal with |- context [if ?c then _ else _] => destruct c end; apply IH.
Qed.

Lemma classify_all_orgs (crm : CRM) (answer : http Organization)
      (deals : list (option Deal)) :
  forall b,
    classify_all show_number seven_days_ago (with_organizations crm answer) deals b
    = classify_all show_number seven_days_ago crm deals b.
Proof.
  unfold classify_all. induction deals as [|d deals IH]; intros b; simpl; [reflexivity|].
  change (classify_deal show_number seven_days_ago (with_organizations crm answer))
    with (classify_deal show_number seven_days_ago crm).
  apply IH.
Qed.

Lemma value_change_pass_orgs (crm : CRM) (answer : http Organization) (dd : body Deal) :
  pass (with_organizations crm answer) dd = pass crm dd.
Proof.
  unfold value_change_pass.
  destruct (filter_deals_with_value_change seven_days_ago_iso dd); [|reflexivity].
  apply value_change_loop_orgs.
Qed.

Lemma deal_categories_orgs (crm : CRM) (answer : http Organization) :
  deal_categories (classify (with_organizations crm answer))
  = deal_categories (classify crm).
Proof.
  unfold fetch_recent_pipedrive_deals, classifier_body. cbn [configured all_deals with_organizations].
  destruct (configured crm); [|reflexivity]. cbn [negb].
  destruct (all_deals crm) as [|dd]; [reflexivity|].
  rewrite value_change_pass_orgs.
  destruct (pass crm dd) as [[ups downs]|]; [|reflexivity].
  destruct (negb (succeeded dd)); [reflexivity|].
  destruct (get_default (data dd) []) as [deals|]; [|reflexivity].
  rewrite classify_all_orgs. reflexivity.
Qed.

Lemma new_organizations_fault (crm : CRM) :
  organizations crm = Failed ->
  result_new_organizations (classify crm) = [].
Proof.
  intros Ho. unfold fetch_recent_pipedrive_deals, classifier_body.
  destruct (configured crm) eqn:Ec; [|reflexivity]. cbn [negb].
  destruct (all_deals crm) as [|dd]; [reflexivity|].
  destruct (pass crm dd) as [[ups downs]|]; [|reflexivity].
  destruct (negb (succeeded dd)); [reflexivity|].
  destruct (get_default (data dd) []) as [deals|]; [|reflexivity].
  cbn [result_new_organizations]. unfold get_new_organizations.
  rewrite Ec, Ho. reflexivity.
Qed.

(** A deal of the value-change pass whose change cannot be read ends the
    pass with an exception. *)
Lemma value_change_loop_raises (crm : CRM) (deal : Deal) (deals : list Deal) :
  In deal deals ->
  get_deal_value_change show_float float_of_string seven_days_ago_iso crm
                        (get (deal_id deal)) (get (title deal)) = None ->
  forall ups downs,
    value_change_loop show_float float_of_string seven_days_ago_iso crm deals ups downs
    = None.
Proof.
  intros Hin Hnone. induction deals as [|d deals IH]; [contradiction|].
  intros ups downs. simpl.
  destruct (get_deal_value_change _ _ _ crm (get (deal_id d)) (get (title d)))
    as [change|] eqn:E; [|reflexivity].
  destruct Hin as [->|Hin]; [congruence|].
  match goal with |- context [if ?c then _ else _] => destruct c end; now apply IH.
Qed.

Lemma flow_fault_no_change (crm : CRM) (id : option Z) (deal_title : option string) :
  deal_flow crm id = Failed ->
  get_deal_value_change show_float float_of_string seven_days_ago_iso crm id deal_title
  = None.
Proof.
  intros Hf. unfold get_deal_value_change. rewrite Hf. now destruct (configured crm).
Qed.

(** A fault of a flow request of the value-change pass ends the pass, and
    with it the classifier's body, in an exception. *)
Lemma value_change_fault_raises (crm : CRM) (deals_data : body Deal)
      (filtered : list Deal) (deal : Deal) :
  all_deals crm = Json deals_data ->
  filter_deals_with_value_change seven_days_ago_iso deals_data = Some filtered ->
  In deal filtered ->
  deal_flow crm (get (deal_id deal)) = Failed ->
  body_of crm = None.
Proof.
  intros Ha Hf Hin Hflow. unfold classifier_body, value_change_pass. rewrite Ha, Hf.
  rewrite (value_change_loop_raises crm deal filtered Hin); [reflexivity|].
  now apply flow_fault_no_change.
Qed.

(** C9 (amended).  No exception leaves the classifier: an exception in its
    body ends in the result with every list empty.  That is what a fault of
    the deal listing does: it empties every category, [new_organizations]
    included.  A fault of the organizations listing empties
    [new_organizations] only: the deal categories do not depend on the answer
    to that request.  A fault of the flow request made for a lost deal is
    read as "never won". *)
Theorem C9_faults_and_categories (crm : CRM) :
  (configured crm = true -> body_of crm = None -> classify crm = empty_result true)
  /\ (configured crm = true -> all_deals crm = Failed ->
      classify crm = empty_result true)
  /\ (organizations crm = Failed -> result_new_organizations (classify crm) = [])
  /\ (forall answer,
         deal_categories (classify (with_organizations crm answer))
         = deal_categories (classify crm))
  /\ (forall id, deal_flow crm id = Failed -> check_if_previously_won crm id = false).
Proof.
  assert (Hbody : configured crm = true -> body_of crm = None ->
                  classify crm = empty_result true).
  { intros Hc Hb. unfold fetch_recent_pipedrive_deals. now rewrite Hc, Hb. }
  split; [exact Hbody|]. split; [|split; [|split]].
  - intros Hc Ha. apply Hbody; [assumption|]. unfold classifier_body. now rewrite Ha.
  - apply new_organizations_fault.
  - intros answer. apply deal_categories_orgs.
  - intros id Hf. unfold check_if_previously_won. rewrite Hf.
    now destruct (configured crm).
Qed.

(** C10.  On deals whose status is "open", "won" or "lost" the chain leaves
    [new_trials], [upgrades] and [downgrades] as it found them.  Hence, when
    the listed deals have such statuses, the classifier returns an empty
    [new_trials], and its [upgrades] and [downgrades] are both empty or are
    exactly the two lists of the value-change pass. *)
Theorem C10_title_keyword_branches_dead (crm : CRM) :
  (forall deals b,
      Forall status_in_model deals ->
      new_trials (classify_all show_number seven_days_ago crm deals b) = new_trials b
      /\ upgrades (classify_all show_number seven_days_ago crm deals b) = upgrades b
      /\ downgrades (classify_all show_number seven_days_ago crm deals b) = downgrades b)
  /\ ((forall deals_data deals,
          all_deals crm = Json deals_data ->
          get_default (data deals_data) [] = Some deals ->
          Forall status_in_model deals) ->
      result_new_trials (classify crm) = []
      /\ ((result_upgrades (classify crm) = [] /\ result_downgrades (classify crm) = [])
          \/ exists deals_data ups downs,
               all_deals crm = Json deals_data /\
               pass crm deals_data = Some (ups, downs) /\
               result_upgrades (classify crm) = ups /\
               result_downgrades (classify crm) = downs)).
Proof.
  assert (Hchain : forall deals b,
             Forall status_in_model deals ->
             new_trials (classify_all show_number seven_days_ago crm deals b) = new_trials b
             /\ upgrades (classify_all show_number seven_days_ago crm deals b) = upgrades b
             /\ downgrades (classify_all show_number seven_days_ago crm deals b)
                = downgrades b).
  { intros deals b Hall.
    destruct (classify_all_chain show_number seven_days_ago crm deals b) as [Hn Hu].
    destruct (Hu Hall) as [H1 H2]. repeat split; assumption. }
  split; [exact Hchain|]. intros Hst.
  unfold fetch_recent_pipedrive_deals, classifier_body.
  destruct (configured crm); cbn [negb]; [|split; [reflexivity | left; split; reflexivity]].
  destruct (all_deals crm) as [|dd] eqn:Ea; [split; [reflexivity | left; split; reflexivity]|].
  destruct (pass crm dd) as [[ups downs]|] eqn:Ep;
    [|split; [reflexivity | left; split; reflexivity]].
  destruct (negb (succeeded dd)); [split; [reflexivity | left; split; reflexivity]|].
  destruct (get_default (data dd) []) as [deals|] eqn:Ed;
    [|split; [reflexivity | left; split; reflexivity]].
  destruct (Hchain deals (mkBuckets [] [] [] [] [] ups downs) (Hst dd deals eq_refl Ed))
    as (Hn & Hu & Hd).
  cbn [result_new_trials result_upgrades result_downgrades].
  split; [exact Hn|]. right. exists dd, ups, downs. repeat split; assumption.
Qed.

End Classifier.

Import DealSamples.


(** C4 as stated fails for a deal without organization.  The deal below is
    lost inside the window and has "churn" in its title; its [org_id] is
    [null], reading the organization's name raises, and the handler of the
    loop passes the deal over: the run ends normally, with the new
    organization reported, and with the deal neither in [churned] nor in
    [lost_deals]. *)
Lemma C4_deal_without_organization_is_skipped :
  get (status orphan_churn_deal) = Some "lost"
  /\ in_window seven_days_ago (get (lost_time orphan_churn_deal)) = true
  /\ title_has "churn" (get (title orphan_churn_deal)) = Some true
  /\ all_deals crm_orphan = Json (mkBody (Val true) (Val [Some orphan_churn_deal]))
  /\ result_churned (classify_sample crm_orphan) = []
  /\ result_lost_deals (classify_sample crm_orphan) = []
  /\ result_new_organizations (classify_sample crm_orphan)
     = [(Some "Initech", Some (SNum 12%Q))].
Proof. repeat split; vm_compute; reflexivity. Qed.


(** C5 as stated fails on values that are floats.  Two won deals of values
    1e16 and 1: the double 1e16 is the integer 10000000000000000, the sum of
    the two values is 10000000000000001, and the total returned is
    10000000000000000, on every interpreter.  Two won deals of value 1e308
    each: their floating-point sum is infinite, and rounding it raises. *)
Lemma C5_float_total_is_not_the_sum :
  round (NFloat ten_to_16) = Some 10000000000000000%Z
  /\ (forall compensated_sum long_max,
         calculate_total_won_value compensated_sum long_max
           (crm_won [Some (won_with (NFloat ten_to_16)); Some (won_with (NInt 1))])
         = Some 10000000000000000%Z)
  /\ (forall compensated_sum long_max,
         calculate_total_won_value compensated_sum long_max
           (crm_won [Some (won_with (NFloat ten_to_308));
                     Some (won_with (NFloat ten_to_308))])
         = None).
Proof.
  split; [vm_compute; reflexivity|]. split.
  - intros c lm. unfold calculate_total_won_value, get_won_deals. cbn.
    destruct c; cbn; [destruct (fits_long lm 1)|]; vm_compute; reflexivity.
  - intros c lm. unfold calculate_total_won_value, get_won_deals. cbn.
    destruct c; vm_compute; reflexivity.
Qed.

(** C9 as stated fails: when the deal listing faults, the organizations
    listing, which answers with a new organization, is not consulted, and
    [new_organizations] comes back empty with the deal categories. *)
Lemma C9_listing_fault_empties_new_organizations :
  all_deals crm_listing_down = Failed
  /\ get_new_organizations seven_days_ago_iso crm_listing_down
     = [(Some "Initech", Some (SNum 12%Q))]
  /\ result_new_organizations (classify_sample crm_listing_down) = []
  /\ result_new_organizations (classify_sample crm)
     = [(Some "Initech", Some (SNum 12%Q))].
Proof. repeat split; vm_compute; reflexivity. Qed.

Lemma C9_witness :
  classify_sample crm_listing_down = empty_result true.
Proof.
  apply (proj1 (proj2 (C9_faults_and_categories
                         show show_float float_of_string
                         seven_days_ago seven_days_ago_iso crm_listing_down))).
  - reflexivity.
  - reflexivity.
Defined.

(** The value-change pass does not expect [get_deal_value_change] to return
    [None]: with the flow requests failing, the sample listing, which holds a
    converted deal, is classified into empty lists. *)
Lemma flow_fault_empties_every_category :
  classify_sample crm_flow_down = empty_result true
  /\ result_converted (classify_sample crm)
     = [String.concat "" ["Acme +100"; currency; "/mo"]].
Proof. split; vm_compute; reflexivity. Qed.

Lemma C10_witness :
  result_new_trials (classify_sample crm) = []
  /\ ((result_upgrades (classify_sample crm) = [] /\
       result_downgrades (classify_sample crm) = [])
      \/ exists deals_data ups downs,
           all_deals crm = Json deals_data /\
           value_change_pass show_float float_of_string seven_days_ago_iso crm deals_data
           = Some (ups, downs) /\
           result_upgrades (classify_sample crm) = ups /\
           result_downgrades (classify_sample crm) = downs).
Proof.
  apply (proj2 (C10_title_keyword_branches_dead
                  show show_float float_of_string seven_days_ago seven_days_ago_iso crm)).
  intros deals_data deals [= <-] [= <-].
  constructor; [right; left; reflexivity|].
  constructor; [right; left; reflexivity | constructor].
Defined.

End DealsFacts.
